(** * csv_to_html_gallery: the CSV-to-HTML catalog generator

    A shallow embedding of [csv_to_html_gallery.py] and the properties of its
    read / group / render / write pipeline.

    Conventions of the model.
    - A Python [str] is a [string]; each [ascii] stands for one code point
      below 256, so comparison by [String.compare] is Python's comparison by
      code point, and [isspace] is [str.isspace] on that range.
    - A value stored in a [csv.DictReader] row is a [str] or [None]:
      [option string], with [None] for Python's [None].
    - An exception is a value of [exn]; code that may raise returns a
      [result], and statements are sequenced with the bind of that monad.
    - The input file is given as the lines that [csv.reader] yields, the
      file system as [Path(p).exists()], which answers or raises, and
      [main] passes a [world] along: the output file is opened, which
      empties it, and then written, a write that fails leaving a prefix of
      the text; printing fails when stdout cannot encode the line. *)

From Stdlib Require Import List String Ascii Bool Arith PeanoNat NArith Lia.
From Stdlib Require Import Sorting.Sorted Sorting.Permutation DecimalString.
Import ListNotations.
Local Open Scope string_scope.

Set Implicit Arguments.

(* ------------------------------------------------------------------ *)
(** ** Exceptions and results *)

Inductive exn : Type :=
| AttributeError      (* a method looked up on None *)
| TypeError           (* an operation applied to None *)
| IndexError          (* list index out of range *)
| FileNotFoundError   (* the input file cannot be opened *)
| UnicodeDecodeError  (* the input is not UTF-8 *)
| CsvError            (* csv.Error raised by the reader *)
| PermissionError     (* the output file cannot be opened for writing *)
| OSError             (* a path cannot be examined, a write fails *)
| UnicodeEncodeError. (* stdout cannot encode the text printed *)

Inductive result (A : Type) : Type :=
| Ok (a : A)
| Raise (e : exn).

Arguments Ok {A} a.
Arguments Raise {A} e.

Definition bind {A B : Type} (m : result A) (k : A -> result B) : result B :=
  match m with
  | Ok a => k a
  | Raise e => Raise e
  end.

Notation "x <- m ;; k" := (bind m (fun x => k))
  (at level 61, m at next level, right associativity).

Fixpoint mapM {A B : Type} (f : A -> result B) (l : list A) : result (list B) :=
  match l with
  | [] => Ok []
  | a :: l' => b <- f a ;; bs <- mapM f l' ;; Ok (b :: bs)
  end.

(* ------------------------------------------------------------------ *)
(** ** The Python string operations the program uses *)

Module Py.

(** The double quote and the line feed, which a literal cannot hold. *)
Definition dq : string := String "034"%char EmptyString.
Definition nl : string := String "010"%char EmptyString.

(** [str.isspace] on code points below 256: TAB..CR, FS..US, SPACE,
    NEL (U+0085) and NBSP (U+00A0). *)
Definition isspace (c : ascii) : bool :=
  let n := nat_of_ascii c in
  (((9 <=? n) && (n <=? 13)) || ((28 <=? n) && (n <=? 32))
   || (n =? 133) || (n =? 160))%nat.

Fixpoint lstrip (s : string) : string :=
  match s with
  | EmptyString => EmptyString
  | String c r => if isspace c then lstrip r else s
  end.

Fixpoint rstrip (s : string) : string :=
  match s with
  | EmptyString => EmptyString
  | String c r =>
      match rstrip r with
      | EmptyString => if isspace c then EmptyString else String c EmptyString
      | r' => String c r'
      end
  end.

(** [s.strip()] *)
Definition strip (s : string) : string := lstrip (rstrip s).

(** Truth value of a [str]: the empty string is false. *)
Definition truthy (s : string) : bool :=
  match s with EmptyString => false | _ => true end.

(** [v or d] for [v] a [str] or [None]. *)
Definition or_else (v : option string) (d : string) : string :=
  match v with
  | Some s => if truthy s then s else d
  | None => d
  end.

(** [s.replace(old, new)] for a one-character [old]. *)
Fixpoint replace (old : ascii) (new : string) (s : string) : string :=
  match s with
  | EmptyString => EmptyString
  | String c r =>
      if Ascii.eqb c old then new ++ replace old new r
      else String c (replace old new r)
  end.

(** [s.split(sep)] for a one-character [sep]: never the empty list. *)
Fixpoint split (sep : ascii) (s : string) : list string :=
  match s with
  | EmptyString => [EmptyString]
  | String c r =>
      if Ascii.eqb c sep then EmptyString :: split sep r
      else match split sep r with
           | p :: ps => String c p :: ps
           | [] => [String c EmptyString]
           end
  end.

(** [sep.join(l)] *)
Definition join (sep : string) (l : list string) : string :=
  String.concat sep l.

(** [str(n)] for a non-negative [int]. *)
Definition str_of_nat (n : nat) : string :=
  NilZero.string_of_uint (Nat.to_uint n).

(** [c in s] for a character [c]. *)
Fixpoint contains (c : ascii) (s : string) : bool :=
  match s with
  | EmptyString => false
  | String d r => Ascii.eqb d c || contains c r
  end.

(** [html.escape(s, quote)]: five replacements, [&] first. *)
Definition html_escape (s : string) (quote : bool) : string :=
  let s := replace "&" "&amp;" s in
  let s := replace "<" "&lt;" s in
  let s := replace ">" "&gt;" s in
  if quote then
    let s := replace "034" "&quot;" s in
    let s := replace "'" "&#x27;" s in
    s
  else s.

End Py.

(* ------------------------------------------------------------------ *)
(** ** The helpers of the renderer *)

(** [safe_text]: strip text or return N/A. *)
Definition safe_text (value : option string) : string :=
  let txt := Py.strip (Py.or_else value "") in
  if Py.truthy txt then txt else "N/A".

(** [safe_html]: escape for HTML. *)
Definition safe_html (value : option string) : string :=
  Py.html_escape (Py.or_else value "") true.

(** One chip of [make_chips]: the tag, escaped, in its anchor. *)
Definition chip (tag : string) : string :=
  "<a href=" ++ Py.dq ++ "#" ++ Py.dq ++ " class=" ++ Py.dq ++ "filter-chip"
    ++ Py.dq ++ ">" ++ safe_html (Some tag) ++ "</a>".

(** [make_chips]: clickable filter chips from comma-separated tags. *)
Definition make_chips (cell : option string) : string :=
  match cell with
  | None => "N/A"
  | Some cell =>
      if negb (Py.truthy cell) || negb (Py.truthy (Py.strip cell)) then "N/A"
      else
        let tags :=
          map Py.strip
              (filter (fun t => Py.truthy (Py.strip t)) (Py.split "," cell)) in
        match tags with
        | [] => "N/A"
        | _ => Py.join " " (map chip tags)
        end
  end.

(* ------------------------------------------------------------------ *)
(** ** Dictionaries

    A Python [dict] keeps its keys distinct and in insertion order: an
    association list in which [set] overwrites in place or appends. *)

Module Dict.
Section WithEq.
Variables K V : Type.
Variable eqb : K -> K -> bool.

Definition t : Type := list (K * V).

Fixpoint lookup (k : K) (d : t) : option V :=
  match d with
  | [] => None
  | (k', v) :: d' => if eqb k k' then Some v else lookup k d'
  end.

(** [d[k] = v] *)
Fixpoint set (k : K) (v : V) (d : t) : t :=
  match d with
  | [] => [(k, v)]
  | (k', v') :: d' =>
      if eqb k k' then (k', v) :: d' else (k', v') :: set k v d'
  end.

(** [d.get(k, default)] *)
Definition get (d : t) (k : K) (default : V) : V :=
  match lookup k d with
  | Some v => v
  | None => default
  end.

(** [dict(pairs)]: a later pair overwrites an earlier one. *)
Definition of_pairs (pairs : list (K * V)) : t :=
  fold_left (fun d kv => set (fst kv) (snd kv) d) pairs [].
End WithEq.
End Dict.

(* ------------------------------------------------------------------ *)
(** ** The record source: [csv.DictReader] *)

(** A row of the reader: a field name mapped to a [str], or to [None]. *)
Definition record : Type := Dict.t string (option string).

Definition get (r : record) (k : string) (default : option string)
  : option string :=
  Dict.get String.eqb r k default.

(** [r[k] = v] *)
Definition set_field (k : string) (v : option string) (r : record) : record :=
  Dict.set String.eqb k v r.

(** What [csv.reader] yields for one line of the file: its fields, or an
    exception raised while the line is decoded or parsed. *)
Inductive csv_line : Type :=
| Row (fields : list string)
| Bad (e : exn).

(** The body of [DictReader.__next__]: [dict(zip(fieldnames, row))], and
    the fields a short row lacks are set to [restval], which is [None].
    The surplus of a long row goes under the key [restkey], which is [None]
    and no field name, so no [get] of a name ever sees it: it is left out. *)
Definition dict_reader_row (fieldnames row : list string) : record :=
  let d := Dict.of_pairs String.eqb (combine fieldnames (map Some row)) in
  fold_left (fun d key => Dict.set String.eqb key None d)
            (skipn (List.length row) fieldnames) d.

(** The rows after the header: blank rows are skipped, and the iteration
    ends at the first exception, which is kept beside the rows read. *)
Fixpoint dict_reader_rows (fieldnames : list string) (lines : list csv_line)
  : list record * option exn :=
  match lines with
  | [] => ([], None)
  | Bad e :: _ => ([], Some e)
  | Row [] :: rest => dict_reader_rows fieldnames rest
  | Row row :: rest =>
      let (recs, err) := dict_reader_rows fieldnames rest in
      (dict_reader_row fieldnames row :: recs, err)
  end.

(** [csv.DictReader(f)]: the first row gives the field names; an empty
    file has none and yields nothing. *)
Definition dict_reader (lines : list csv_line) : list record * option exn :=
  match lines with
  | [] => ([], None)
  | Bad e :: _ => ([], Some e)
  | Row fieldnames :: rest => dict_reader_rows fieldnames rest
  end.

(* ------------------------------------------------------------------ *)
(** ** The grouping stage *)

(** The group key: (Game Name, Game Page Link), both stripped. *)
Definition key : Type := (string * string)%type.

Definition key_eqb (a b : key) : bool :=
  String.eqb (fst a) (fst b) && String.eqb (snd a) (snd b).

(** [a < b] on tuples of two strings: the first components decide unless
    they are equal. *)
Definition key_ltb (a b : key) : bool :=
  match String.compare (fst a) (fst b) with
  | Lt => true
  | Eq => String.ltb (snd a) (snd b)
  | Gt => false
  end.

(** [v.strip()] for [v] a [str] or [None]. *)
Definition strip_method (v : option string) : result string :=
  match v with
  | Some s => Ok (Py.strip s)
  | None => Raise AttributeError
  end.

Definition record_key (r : record) : result key :=
  name <- strip_method (get r "Game Name" (Some "")) ;;
  link <- strip_method (get r "Game Page Link" (Some "")) ;;
  Ok (name, link).

(** [groups = defaultdict(list)] *)
Definition groups : Type := Dict.t key (list record).

(** [groups[key].append(record)] *)
Fixpoint append_to (k : key) (r : record) (g : groups) : groups :=
  match g with
  | [] => [(k, [r])]
  | (k', rs) :: g' =>
      if key_eqb k k' then (k', (rs ++ [r])%list) :: g'
      else (k', rs) :: append_to k r g'
  end.

(** The loop of step 1 over the records the reader yields. *)
Fixpoint group_records (recs : list record) (g : groups) : result groups :=
  match recs with
  | [] => Ok g
  | r :: rest =>
      k <- record_key r ;;
      group_records rest (append_to k r g)
  end.

(** Step 1, read and group. A record is grouped as soon as it is read, so
    an exception of the reader comes after the records before it. *)
Definition read_and_group (f : option (list csv_line)) : result groups :=
  match f with
  | None => Raise FileNotFoundError
  | Some lines =>
      let (recs, err) := dict_reader lines in
      g <- group_records recs [] ;;
      match err with
      | Some e => Raise e
      | None => Ok g
      end
  end.

(** [sorted(groups.items())]. An item is a pair of a key and its records;
    the keys of a dict are distinct, so two items always compare by their
    keys, on which [<] is a strict total order. *)
Fixpoint insert_item {A : Type} (x : key * A) (l : list (key * A))
  : list (key * A) :=
  match l with
  | [] => [x]
  | y :: l' =>
      if key_ltb (fst y) (fst x) then y :: insert_item x l'
      else x :: y :: l'
  end.

Definition sorted {A : Type} (l : list (key * A)) : list (key * A) :=
  fold_right insert_item [] l.

(* ------------------------------------------------------------------ *)
(** ** The row renderer *)

(** The seven cells of a table row, in the order of the columns. *)
Record cells : Type := {
  img : string;
  title_cell : string;
  author : string;
  category : string;
  genre : string;
  tags : string;
  price : string
}.

(** An attribute value between double quotes. *)
Definition quoted (s : string) : string := Py.dq ++ s ++ Py.dq.

Definition td (cell : string) : string :=
  "          <td>" ++ cell ++ "</td>" ++ Py.nl.

(** The template of [row_html], with [rstrip] applied to the whole of it. *)
Definition row_html (c : cells) : string :=
  Py.rstrip
    (Py.nl ++ "        <tr>" ++ Py.nl
       ++ td (img c) ++ td (title_cell c) ++ td (author c)
       ++ td (category c) ++ td (genre c) ++ td (tags c) ++ td (price c)
       ++ "        </tr>" ++ Py.nl ++ "        ").

(** [f" ({count})" if count > 1 else ""] *)
Definition count_suffix (count : nat) : string :=
  if (1 <? count)%nat then " (" ++ Py.str_of_nat count ++ ")" else "".

(** The thumbnail markup, used when the decoded path is not empty and
    exists on disk. *)
Definition img_html (thumb_url : string) : string :=
  "<div class=" ++ quoted "thumb-wrapper" ++ ">"
    ++ "<img class=" ++ quoted "thumb" ++ " src=" ++ quoted thumb_url ++ ">"
    ++ "<img class=" ++ quoted "zoomed" ++ " src=" ++ quoted thumb_url ++ ">"
    ++ "</div>".

(** The disclosure element around the escaped description. *)
Definition details_element (description : string) : string :=
  "<details style=" ++ quoted "margin-top:4px;" ++ "><summary style="
    ++ quoted "cursor:pointer;" ++ ">Description</summary>"
    ++ "<div style="
    ++ quoted "margin-top:6px; white-space:pre-wrap; font-size:0.9em; line-height:1.4;"
    ++ ">" ++ description ++ "</div></details>".

(** [details_html]: the element unless the description is the text N/A. *)
Definition details_html (description : string) : string :=
  if negb (String.eqb description "N/A") then details_element description
  else "".

(** The anchor of the title cell. *)
Definition title_anchor (link title suffix : string) : string :=
  "<a href=" ++ quoted link ++ " target=" ++ quoted "_blank" ++ ">"
    ++ title ++ suffix ++ "</a>".

(** [records[0]] *)
Definition index0 {A : Type} (l : list A) : result A :=
  match l with
  | [] => Raise IndexError
  | a :: _ => Ok a
  end.

(* ------------------------------------------------------------------ *)
(** ** The world of a run *)

(** What [main] reads and writes. *)
Record world : Type := {
  csv_file : option (list csv_line);   (* CSV_PATH, [None] if missing *)
  path_exists : string -> result bool; (* [Path(p).exists()] while the rows
                                          are built, before anything is
                                          written: it answers or raises
                                          OSError *)
  out_file : option string;            (* OUTPUT_PATH, [None] if missing *)
  out_writable : bool;                 (* OUTPUT_PATH can be opened *)
  out_room : option nat;               (* the characters that the device
                                          takes before a write fails;
                                          [None] when it takes them all *)
  stdout : list string;                (* the lines printed so far *)
  stdout_ok : bool                     (* stdout can encode what is printed *)
}.

Definition with_out_file (content : string) (w : world) : world :=
  {| csv_file := csv_file w; path_exists := path_exists w;
     out_file := Some content; out_writable := out_writable w;
     out_room := out_room w; stdout := stdout w; stdout_ok := stdout_ok w |}.

Definition with_line (line : string) (w : world) : world :=
  {| csv_file := csv_file w; path_exists := path_exists w;
     out_file := out_file w; out_writable := out_writable w;
     out_room := out_room w; stdout := (stdout w ++ [line])%list;
     stdout_ok := stdout_ok w |}.

(** [OUTPUT_PATH.write_text(data)]: the file is opened with mode w, which
    empties it, and then written; a write that fails leaves what the
    device took. *)
Definition write_text (data : string) (w : world) : result unit * world :=
  if out_writable w then
    match out_room w with
    | None => (Ok tt, with_out_file data w)
    | Some n =>
        if (n <? String.length data)%nat
        then (Raise OSError, with_out_file (String.substring 0 n data) w)
        else (Ok tt, with_out_file data w)
    end
  else (Raise PermissionError, w).

(** [print(line)] *)
Definition print (line : string) (w : world) : result unit * world :=
  if stdout_ok w then (Ok tt, with_line line w)
  else (Raise UnicodeEncodeError, w).

(* ------------------------------------------------------------------ *)
(** ** Vocabulary of the properties *)

(** Every field of the record holds a [str]: the row was at least as
    long as the header. *)
Definition str_record (r : record) : bool :=
  forallb (fun kv => match snd kv with Some _ => true | None => false end) r.


(** The answer that [row_cells] takes for a decoded path: the file
    system is asked only for a path that is not empty. *)
Definition on_disk (fs : string -> result bool) (thumb_url : string)
  : result bool :=
  if Py.truthy thumb_url then fs thumb_url else Ok false.



(** The records of key [k] among keyed records, in input order. *)
Definition members_of (k : key) (prs : list (key * record)) : list record :=
  map snd (filter (fun kr => key_eqb (fst kr) k) prs).

(** The grouping loop over records whose keys are known. *)
Definition group_pairs (prs : list (key * record)) (g : groups) : groups :=
  fold_left (fun g kr => append_to (fst kr) (snd kr) g) prs g.

(** What a row depends on: its key, the number of records of the group
    and the first of them. *)
Definition summary (rs : list record) : nat * option record :=
  (List.length rs, hd_error rs).

Definition map_items {A B : Type} (f : A -> B) (l : list (key * A))
  : list (key * B) :=
  map (fun kv => (fst kv, f (snd kv))) l.

(** The text consists of blanks and commas only. *)
Fixpoint blank_or_comma (s : string) : bool :=
  match s with
  | EmptyString => true
  | String c r => (Py.isspace c || Ascii.eqb c ",") && blank_or_comma r
  end.

(** What [html.escape] puts for one character. *)
Definition escape_char (c : ascii) : string :=
  if Ascii.eqb c "&" then "&amp;"
  else if Ascii.eqb c "<" then "&lt;"
  else if Ascii.eqb c ">" then "&gt;"
  else if Ascii.eqb c "034" then "&quot;"
  else if Ascii.eqb c "'" then "&#x27;"
  else String c EmptyString.

(** The escaping done in one pass, character by character. *)
Fixpoint escape_each (s : string) : string :=
  match s with
  | EmptyString => EmptyString
  | String c r => escape_char c ++ escape_each r
  end.

(** The text of a chip: the anchor of class filter-chip around the tag,
    escaped in one pass. *)
Definition chip_text (tag : string) : string :=
  "<a href=" ++ Py.dq ++ "#" ++ Py.dq ++ " class=" ++ Py.dq ++ "filter-chip"
    ++ Py.dq ++ ">" ++ escape_each tag ++ "</a>".

(** The Category / Genre / Tags rule in the words of the design: split on
    commas, trim each piece, drop the empty pieces; N/A when none is left,
    otherwise one escaped chip per piece, separated by spaces. *)
Definition chips_by_rule (cell : string) : string :=
  match filter Py.truthy (map Py.strip (Py.split "," cell)) with
  | [] => "N/A"
  | pieces => Py.join " " (map chip_text pieces)
  end.



(** The records stored under [k], none when [k] is no key of [g]. *)
Definition records_of (k : key) (g : groups) : list record :=
  Dict.get key_eqb g k [].

(** The text consists of blanks only. *)
Fixpoint all_space (s : string) : bool :=
  match s with
  | EmptyString => true
  | String c r => Py.isspace c && all_space r
  end.

(** The record has the key [k]. *)
Definition has_key (k : key) (r : record) : bool :=
  match record_key r with
  | Ok k' => key_eqb k' k
  | Raise _ => false
  end.

(** The fields that the renderer reads from the first record of a group,
    and all the fields that [build_rows] reads. *)
Definition rendered_fields : list string :=
  ["Thumbnail"; "Description"; "Author"; "Category"; "Genre"; "Tags";
   "Price"].

Definition recognised_fields : list string :=
  "Game Name" :: "Game Page Link" :: rendered_fields.

(** Two records with the same key, or the same exception for it, and the
    same rendered fields. *)
Definition same_rendering (r r' : record) : Prop :=
  record_key r = record_key r'
  /\ forall k, In k rendered_fields -> get r k (Some "") = get r' k (Some "").

(** The same, on the items of the groups and on keyed records. *)
Definition item_same (it it' : key * list record) : Prop :=
  fst it = fst it' /\ Forall2 same_rendering (snd it) (snd it').

Definition pair_same (p p' : key * record) : Prop :=
  fst p = fst p' /\ same_rendering (snd p) (snd p').

(** The text holds none of the characters that open or close markup or
    an attribute value. *)
Definition no_markup (s : string) : Prop :=
  Py.contains "<" s = false /\ Py.contains ">" s = false
  /\ Py.contains "034" s = false /\ Py.contains "'" s = false.

(** The count behind a title: nothing for a single record, otherwise the
    number of records in decimal, between parentheses and after a blank. *)
Definition shown_count (n : nat) : string :=
  match n with
  | 0 | 1 => ""
  | _ => " (" ++ NilZero.string_of_uint (Nat.to_uint n) ++ ")"
  end.

(** The anchor of a title in the words of the design: it points to the
    escaped link, or to # when the link is empty, opens a new browsing
    context, and shows the escaped name, or N/A when the name is empty,
    followed by the count. *)
Definition anchor_text (k : key) (n : nat) : string :=
  "<a href=" ++ Py.dq
    ++ escape_each (if Py.truthy (snd k) then snd k else "#")
    ++ Py.dq ++ " target=" ++ Py.dq ++ "_blank" ++ Py.dq ++ ">"
    ++ escape_each (if Py.truthy (fst k) then fst k else "N/A")
    ++ shown_count n ++ "</a>".

(** The text of a table row around its seven cells. *)
Definition row_text (cover title author category genre tags price : string)
  : string :=
  Py.nl ++ "        <tr>" ++ Py.nl
    ++ "          <td>" ++ cover ++ "</td>" ++ Py.nl
    ++ "          <td>" ++ title ++ "</td>" ++ Py.nl
    ++ "          <td>" ++ author ++ "</td>" ++ Py.nl
    ++ "          <td>" ++ category ++ "</td>" ++ Py.nl
    ++ "          <td>" ++ genre ++ "</td>" ++ Py.nl
    ++ "          <td>" ++ tags ++ "</td>" ++ Py.nl
    ++ "          <td>" ++ price ++ "</td>" ++ Py.nl
    ++ "        </tr>".


(** The run has completed, or has left the output file as it was. *)
Definition all_or_nothing (before : world) (run : result unit * world)
  : Prop :=
  fst run = Ok tt \/ out_file (snd run) = out_file before.

(** The chips of a field that may be missing from the row. *)
Definition chips_of (field : option string) : string :=
  match field with
  | Some cell => chips_by_rule cell
  | None => "N/A"
  end.

(* ------------------------------------------------------------------ *)
(** ** Concrete inputs *)

(** A catalog of three purchases, two of them of the same game. *)
Definition sample_csv : list csv_line :=
  [ Row ["Game Name"; "Game Page Link"; "Author"; "Tags"; "Price"];
    Row ["Celeste"; "https://a.itch.io/celeste"; "Maddy"; "Action, Puzzle"; "$5"];
    Row ["Baba"; "https://b.itch.io/baba"; "Hempuli"; " , ,"; ""];
    Row [" Celeste"; "https://a.itch.io/celeste "; "Someone"; "Platformer"; "$9"] ].

(** The same catalog with another price in the second purchase of
    Celeste. *)
Definition sample_csv_repriced : list csv_line :=
  [ Row ["Game Name"; "Game Page Link"; "Author"; "Tags"; "Price"];
    Row ["Celeste"; "https://a.itch.io/celeste"; "Maddy"; "Action, Puzzle"; "$5"];
    Row ["Baba"; "https://b.itch.io/baba"; "Hempuli"; " , ,"; ""];
    Row [" Celeste"; "https://a.itch.io/celeste "; "Someone"; "Platformer"; "$1"] ].

Definition celeste : record :=
  [("Game Name", Some "Celeste");
   ("Game Page Link", Some "https://a.itch.io/celeste");
   ("Author", Some "Maddy"); ("Tags", Some "Action, Puzzle");
   ("Price", Some "$5")].

Definition baba : record :=
  [("Game Name", Some "Baba");
   ("Game Page Link", Some "https://b.itch.io/baba");
   ("Author", Some "Hempuli"); ("Tags", Some " , ,"); ("Price", Some "")].

Definition celeste_again : record :=
  [("Game Name", Some " Celeste");
   ("Game Page Link", Some "https://a.itch.io/celeste ");
   ("Author", Some "Someone"); ("Tags", Some "Platformer");
   ("Price", Some "$9")].

(** No thumbnail on disk, and a decoder that is never reached. *)
Definition no_file (p : string) : result bool := Ok false.
Definition any_file (p : string) : result bool := Ok true.
Definition no_decoding (s : string) : string := s.

(** A data row shorter than the header. *)
Definition short_row_csv : list csv_line :=
  [ Row ["Game Name"; "Game Page Link"]; Row ["Celeste"] ].

(** A data row that lacks the Thumbnail field only. *)
Definition short_thumbnail_csv : list csv_line :=
  [ Row ["Game Name"; "Game Page Link"; "Thumbnail"];
    Row ["Celeste"; "https://a.itch.io/celeste"] ].

(** A price and a thumbnail path that hold markup characters. *)
Definition markup_thumbnail : string :=
  "x" ++ Py.dq ++ " onload=" ++ Py.dq ++ "alert(1)".

Definition markup_csv : list csv_line :=
  [ Row ["Game Name"; "Game Page Link"; "Thumbnail"; "Description"; "Price"];
    Row ["Celeste"; "https://a.itch.io/celeste"; markup_thumbnail;
         "N/A"; "<i>free</i>"] ].

(** A row with an empty description. *)
Definition no_description_csv : list csv_line :=
  [ Row ["Game Name"; "Game Page Link"; "Description"];
    Row ["Celeste"; "https://a.itch.io/celeste"; ""] ].


Definition world_two : world :=
  {| csv_file := Some sample_csv; path_exists := no_file;
     out_file := Some "an older catalog"; out_writable := true;
     out_room := None; stdout := ["earlier output"]; stdout_ok := true |}.

(** The groups of the sample catalog, in the order of first appearance. *)
Definition sample_groups : groups :=
  [(("Celeste", "https://a.itch.io/celeste"), [celeste; celeste_again]);
   (("Baba", "https://b.itch.io/baba"), [baba])].

Definition short_celeste : record :=
  [("Game Name", Some "Celeste"); ("Game Page Link", None)].

(** A catalog with a column that [build_rows] does not read, the same
    with another value in it, and the same with blanks around the name. *)
Definition dated_csv : list csv_line :=
  [ Row ["Game Name"; "Game Page Link"; "Purchase Date"];
    Row ["Celeste"; "https://a.itch.io/celeste"; "2024-01-01"] ].

Definition dated_csv_changed : list csv_line :=
  [ Row ["Game Name"; "Game Page Link"; "Purchase Date"];
    Row ["Celeste"; "https://a.itch.io/celeste"; "2025-06-30"] ].

Definition padded_csv : list csv_line :=
  [ Row ["Game Name"; "Game Page Link"; "Purchase Date"];
    Row [" Celeste "; "https://a.itch.io/celeste"; "2024-01-01"] ].

Definition celeste_dated : record :=
  [("Game Name", Some "Celeste");
   ("Game Page Link", Some "https://a.itch.io/celeste");
   ("Purchase Date", Some "2024-01-01")].

(** A catalog without the two columns of the key. *)
Definition nameless_csv : list csv_line :=
  [ Row ["Author"; "Price"]; Row ["Maddy"; "$5"]; Row ["Hempuli"; ""] ].

Definition maddy : record := [("Author", Some "Maddy"); ("Price", Some "$5")].
Definition hempuli : record := [("Author", Some "Hempuli"); ("Price", Some "")].


Definition header_only_csv : list csv_line :=
  [ Row ["Game Name"; "Game Page Link"; "Price"] ].

Definition world_empty : world :=
  {| csv_file := Some header_only_csv; path_exists := no_file;
     out_file := Some "an older catalog"; out_writable := true;
     out_room := None; stdout := []; stdout_ok := true |}.

(** A terminal that cannot encode the confirmation, and a device with
    room for three characters. *)
Definition world_mute : world :=
  {| csv_file := Some header_only_csv; path_exists := no_file;
     out_file := None; out_writable := true; out_room := None;
     stdout := []; stdout_ok := false |}.

Definition world_full : world :=
  {| csv_file := Some header_only_csv; path_exists := no_file;
     out_file := Some "an older catalog"; out_writable := true;
     out_room := Some 3; stdout := []; stdout_ok := true |}.

(** A field with characters that [html.escape] replaces. *)
Definition markup_tags : record :=
  [("Game Name", Some "Celeste"); ("Tags", Some "R&D, <b>")].

(* ------------------------------------------------------------------ *)
(** ** The program *)

Section Program.

(** [urllib.parse.unquote] returns a string without a percent sign as it
    is; [unquote_pct] stands for its decoding of the others, whose result
    may hold any code point. *)
Variable unquote_pct : string -> string.

Definition unquote (s : option string) : result string :=
  match s with
  | None => Raise TypeError
  | Some s => Ok (if Py.contains "%" s then unquote_pct s else s)
  end.

(** The body of the loop of step 2 after [first = records[0]]; [fs] is
    [Path(p).exists()], which is asked only when the decoded path is not
    empty, and which raises OSError for a path that cannot be examined. *)
Definition row_cells (fs : string -> result bool)
           (game_name page_link : string)
           (count : nat) (first : record) : result cells :=
  (* Thumbnail *)
  thumb_url <- unquote (get first "Thumbnail" (Some "")) ;;
  on_disk <- (if Py.truthy thumb_url then fs thumb_url else Ok false) ;;
  let img := if (on_disk : bool) then img_html thumb_url else "N/A" in
  (* Title + count suffix *)
  let title := safe_html (Some (Py.or_else (Some game_name) "N/A")) in
  let suffix := count_suffix count in
  let link := safe_html (Some (Py.or_else (Some page_link) "#")) in
  let description := safe_html (get first "Description" (Some "")) in
  let title_cell :=
    title_anchor link title suffix ++ details_html description in
  (* Other columns *)
  let author := safe_html (get first "Author" (Some "")) in
  let category := make_chips (get first "Category" (Some "")) in
  let genre := make_chips (get first "Genre" (Some "")) in
  let tags := make_chips (get first "Tags" (Some "")) in
  let price := safe_text (get first "Price" (Some "")) in
  Ok {| img := img; title_cell := title_cell; author := author;
        category := category; genre := genre; tags := tags;
        price := price |}.

(** One turn of the loop of step 2. *)
Definition build_row (fs : string -> result bool) (item : key * list record)
  : result string :=
  let '((game_name, page_link), records) := item in
  let count := List.length records in
  first <- index0 records ;;
  c <- row_cells fs game_name page_link count first ;;
  Ok (row_html c).

(** Step 2, one row per group, in the order of [sorted]. *)
Definition rows_of_groups (fs : string -> result bool) (g : groups)
  : result (list string) :=
  mapM (build_row fs) (sorted g).

(** The list [rows] at the end of [build_rows]. *)
Definition build_row_list (fs : string -> result bool) (f : option (list csv_line))
  : result (list string) :=
  g <- read_and_group f ;;
  rows_of_groups fs g.

(** [build_rows(csv_path)]: [f] is the file at [csv_path]. *)
Definition build_rows (fs : string -> result bool) (f : option (list csv_line))
  : result string :=
  rows <- build_row_list fs f ;;
  Ok (Py.join Py.nl rows).

(** [build_row] as a function of what it reads of a group: the key, the
    number of records and the first record. *)
Definition build_row_summary (fs : string -> result bool)
           (item : key * (nat * option record)) : result string :=
  first <- match snd (snd item) with
           | Some r => Ok r
           | None => Raise IndexError
           end ;;
  c <- row_cells fs (fst (fst item)) (snd (fst item)) (fst (snd item)) first ;;
  Ok (row_html c).

Section Main.

(** The two templates and the confirmation that [main] prints: constant
    texts of the source, with characters above 255, that no input
    changes. *)
Variables HTML_HEADER HTML_FOOTER DONE_MESSAGE : string.

Definition main (w : world) : result unit * world :=
  match build_rows (path_exists w) (csv_file w) with
  | Raise e => (Raise e, w)
  | Ok rows =>
      let html_content := HTML_HEADER ++ rows ++ HTML_FOOTER in
      match write_text html_content w with
      | (Raise e, w') => (Raise e, w')
      | (Ok _, w') => print DONE_MESSAGE w'
      end
  end.

(** The world after a run that completes: the document is in the output
    file and the confirmation is printed; nothing else has changed. *)
Definition completed (w : world) (document : string) : world :=
  with_line DONE_MESSAGE (with_out_file document w).

End Main.

(* ------------------------------------------------------------------ *)
(** ** The order on strings and on keys *)





Lemma key_eqb_eq (a b : key) : key_eqb a b = true <-> a = b.
Proof.
  destruct a as [a1 a2], b as [b1 b2]. unfold key_eqb; simpl.
  rewrite andb_true_iff, !String.eqb_eq.
  split; [intros [-> ->]; reflexivity | intros H; inversion H; auto].
Qed.

Lemma key_eqb_refl (a : key) : key_eqb a a = true.
Proof. now apply key_eqb_eq. Qed.

Lemma key_eqb_sym (a b : key) : key_eqb a b = key_eqb b a.
Proof.
  unfold key_eqb.
  now rewrite (String.eqb_sym (fst a)), (String.eqb_sym (snd a)).
Qed.









(* ------------------------------------------------------------------ *)
(** ** [sorted] *)

Lemma insert_item_perm {A : Type} (x : key * A) (l : list (key * A)) :
  Permutation (insert_item x l) (x :: l).
Proof.
  induction l as [|y l IH]; simpl; [reflexivity|].
  destruct (key_ltb (fst y) (fst x)); [|reflexivity].
  rewrite IH. apply perm_swap.
Qed.

Lemma sorted_perm {A : Type} (l : list (key * A)) : Permutation (sorted l) l.
Proof.
  induction l as [|x l IH]; simpl; [reflexivity|].
  rewrite insert_item_perm. now constructor.
Qed.





Lemma insert_item_map_items {A B : Type} (f : A -> B) (x : key * A) l :
  insert_item (fst x, f (snd x)) (map_items f l)
  = map_items f (insert_item x l).
Proof.
  induction l as [|y l IH]; simpl; [reflexivity|].
  destruct (key_ltb (fst y) (fst x)); simpl; [|reflexivity].
  f_equal. exact IH.
Qed.

(** Sorting looks at the keys only. *)
Lemma sorted_map_items {A B : Type} (f : A -> B) (l : list (key * A)) :
  sorted (map_items f l) = map_items f (sorted l).
Proof.
  induction l as [|x l IH]; simpl; [reflexivity|].
  rewrite IH. apply insert_item_map_items.
Qed.


(* ------------------------------------------------------------------ *)
(** ** The grouping loop *)

Lemma records_of_cons (k k' : key) (rs : list record) (g : groups) :
  records_of k ((k', rs) :: g)
  = if key_eqb k k' then rs else records_of k g.
Proof.
  unfold records_of, Dict.get. simpl. now destruct (key_eqb k k').
Qed.

Lemma append_to_in_keys (k k' : key) (r : record) (g : groups) :
  In k' (map fst (append_to k r g)) <-> k' = k \/ In k' (map fst g).
Proof.
  induction g as [|[k0 rs] g IH]; simpl.
  - intuition.
  - destruct (key_eqb k k0) eqn:E; simpl.
    + apply key_eqb_eq in E. subst k0. intuition.
    + rewrite IH. intuition.
Qed.

Lemma append_to_nodup (k : key) (r : record) (g : groups) :
  NoDup (map fst g) -> NoDup (map fst (append_to k r g)).
Proof.
  induction g as [|[k0 rs] g IH]; simpl; intros Hnd.
  - repeat constructor. intros [].
  - inversion Hnd as [|? ? Hnotin Hnd']; subst.
    destruct (key_eqb k k0) eqn:E; simpl.
    + now constructor.
    + constructor; [|now apply IH].
      rewrite append_to_in_keys. intros [-> | H]; [|contradiction].
      rewrite key_eqb_refl in E. discriminate.
Qed.

Lemma append_to_records (k k' : key) (r : record) (g : groups) :
  records_of k' (append_to k r g)
  = if key_eqb k' k then (records_of k' g ++ [r])%list else records_of k' g.
Proof.
  induction g as [|[k0 rs] g IH]; simpl.
  - rewrite records_of_cons. unfold records_of, Dict.get. simpl.
    now destruct (key_eqb k' k).
  - destruct (key_eqb k k0) eqn:E; rewrite !records_of_cons.
    + apply key_eqb_eq in E. subst k0. now destruct (key_eqb k' k).
    + rewrite IH. destruct (key_eqb k' k0) eqn:E0; [|reflexivity].
      apply key_eqb_eq in E0. subst k0.
      destruct (key_eqb k' k) eqn:E1; [|reflexivity].
      apply key_eqb_eq in E1. subst k'. rewrite key_eqb_refl in E.
      discriminate.
Qed.

Lemma append_to_nonempty (k : key) (r : record) (g : groups) :
  Forall (fun it => snd it <> []) g ->
  Forall (fun it => snd it <> []) (append_to k r g).
Proof.
  induction 1 as [|[k0 rs] g H0 Hg IH]; simpl.
  - repeat constructor. discriminate.
  - destruct (key_eqb k k0); constructor; auto.
    simpl. now destruct rs.
Qed.


Lemma group_pairs_nodup (prs : list (key * record)) (g : groups) :
  NoDup (map fst g) -> NoDup (map fst (group_pairs prs g)).
Proof.
  unfold group_pairs. revert g.
  induction prs as [|[k0 r] prs IH]; intros g Hnd; simpl; [exact Hnd|].
  now apply IH, append_to_nodup.
Qed.

Lemma group_pairs_records (prs : list (key * record)) (g : groups) (k : key) :
  records_of k (group_pairs prs g)
  = (records_of k g ++ members_of k prs)%list.
Proof.
  unfold group_pairs, members_of. revert g.
  induction prs as [|[k0 r] prs IH]; intros g;
    cbn [fold_left filter map fst snd].
  - now rewrite app_nil_r.
  - rewrite IH, append_to_records, (key_eqb_sym k0 k).
    destruct (key_eqb k k0); cbn [map snd]; [|reflexivity].
    now rewrite <- app_assoc.
Qed.

Lemma group_pairs_nonempty (prs : list (key * record)) (g : groups) :
  Forall (fun it => snd it <> []) g ->
  Forall (fun it => snd it <> []) (group_pairs prs g).
Proof.
  unfold group_pairs. revert g.
  induction prs as [|[k0 r] prs IH]; intros g H; simpl; [exact H|].
  now apply IH, append_to_nonempty.
Qed.

(** With distinct keys, an item of the dict is what [records_of] finds. *)
Lemma records_of_item (g : groups) (k : key) (rs : list record) :
  NoDup (map fst g) -> In (k, rs) g -> records_of k g = rs.
Proof.
  induction g as [|[k0 rs0] g IH]; simpl; intros Hnd Hin; [destruct Hin|].
  inversion Hnd as [|? ? Hnotin Hnd']; subst.
  rewrite records_of_cons.
  destruct Hin as [E | Hin].
  - inversion E; subst. now rewrite key_eqb_refl.
  - destruct (key_eqb k k0) eqn:E; [|now apply IH].
    apply key_eqb_eq in E. subst k0.
    destruct Hnotin. change k with (fst (k, rs)). now apply in_map.
Qed.

(** The loop raises where the first key cannot be computed, and is
    [group_pairs] on the keyed records otherwise. *)
Lemma group_records_pairs (recs : list record) (g : groups) :
  group_records recs g
  = (ks <- mapM record_key recs ;; Ok (group_pairs (combine ks recs) g)).
Proof.
  revert g. induction recs as [|r recs IH]; intros g; simpl; [reflexivity|].
  destruct (record_key r) as [k|e]; simpl; [|reflexivity].
  rewrite IH. now destruct (mapM record_key recs).
Qed.

Lemma mapM_length {A B : Type} (f : A -> result B) (l : list A) (bs : list B) :
  mapM f l = Ok bs -> List.length bs = List.length l.
Proof.
  revert bs. induction l as [|a l IH]; simpl; intros bs H.
  - now inversion H.
  - destruct (f a); simpl in H; [|discriminate].
    destruct (mapM f l); simpl in H; [|discriminate].
    inversion H; subst. simpl. f_equal. now apply IH.
Qed.

Lemma mapM_app {A B : Type} (f : A -> result B) (l1 l2 : list A) :
  mapM f (l1 ++ l2)
  = (b1 <- mapM f l1 ;; b2 <- mapM f l2 ;; Ok (b1 ++ b2)%list).
Proof.
  induction l1 as [|a l1 IH]; simpl.
  - now destruct (mapM f l2).
  - destruct (f a); simpl; [|reflexivity].
    rewrite IH. destruct (mapM f l1); simpl; [|reflexivity].
    now destruct (mapM f l2).
Qed.

Lemma mapM_ext {A B : Type} (f h : A -> result B) (l : list A) :
  (forall a, In a l -> f a = h a) -> mapM f l = mapM h l.
Proof.
  induction l as [|a l IH]; simpl; intros H; [reflexivity|].
  rewrite (H a (or_introl eq_refl)), IH; auto.
Qed.

Lemma mapM_map {A B C : Type} (h : A -> B) (f : B -> result C) (l : list A) :
  mapM f (map h l) = mapM (fun a => f (h a)) l.
Proof.
  induction l as [|a l IH]; simpl; [reflexivity|]. now rewrite IH.
Qed.

Lemma mapM_total {A B : Type} (f : A -> result B) (l : list A) :
  (forall a, In a l -> exists b, f a = Ok b) ->
  exists bs, mapM f l = Ok bs /\ Forall2 (fun a b => f a = Ok b) l bs.
Proof.
  induction l as [|a l IH]; simpl; intros H.
  - exists []. split; [reflexivity|constructor].
  - destruct (H a (or_introl eq_refl)) as [b Hb].
    destruct IH as [bs [Hbs HF]]; [auto|].
    exists (b :: bs). rewrite Hb, Hbs. split; [reflexivity|].
    now constructor.
Qed.


Lemma mapM_in_combine {A B : Type} (f : A -> result B) (l : list A)
      (bs : list B) (a : A) (b : B) :
  mapM f l = Ok bs -> In a l -> f a = Ok b -> In (b, a) (combine bs l).
Proof.
  revert bs. induction l as [|a0 l IH]; simpl; intros bs H Hin Hb.
  - destruct Hin.
  - destruct (f a0) as [b0|] eqn:Ea; simpl in H; [|discriminate].
    destruct (mapM f l) as [bs0|]; simpl in H; [|discriminate].
    inversion H; subst. simpl. destruct Hin as [-> | Hin].
    + left. congruence.
    + right. now apply IH.
Qed.

Lemma combine_app_eq {A B : Type} (a1 a2 : list A) (b1 b2 : list B) :
  List.length a1 = List.length b1 ->
  combine (a1 ++ a2) (b1 ++ b2) = (combine a1 b1 ++ combine a2 b2)%list.
Proof.
  revert b1. induction a1 as [|x a1 IH]; intros [|y b1]; simpl;
    try discriminate; intros H; [reflexivity|].
  f_equal. apply IH. now inversion H.
Qed.


(* ------------------------------------------------------------------ *)
(** ** Records whose fields are all strings *)

Lemma dict_lookup_set (r : record) (k k' : string) (v : option string) :
  Dict.lookup String.eqb k (Dict.set String.eqb k' v r)
  = if String.eqb k k' then Some v else Dict.lookup String.eqb k r.
Proof.
  induction r as [|[k0 v0] r IH]; simpl.
  - reflexivity.
  - destruct (String.eqb k' k0) eqn:E; simpl.
    + apply String.eqb_eq in E. subst k0. now destruct (String.eqb k k').
    + rewrite IH. destruct (String.eqb k k0) eqn:E0; [|reflexivity].
      apply String.eqb_eq in E0. subst k0.
      destruct (String.eqb k k') eqn:E1; [|reflexivity].
      apply String.eqb_eq in E1. subst k'. rewrite String.eqb_refl in E.
      discriminate.
Qed.

Lemma get_set_other (r : record) (k field : string) (v d : option string) :
  field <> k -> get (set_field field v r) k d = get r k d.
Proof.
  intros Hne. unfold get, set_field, Dict.get. rewrite dict_lookup_set.
  destruct (String.eqb k field) eqn:E; [|reflexivity].
  apply String.eqb_eq in E. congruence.
Qed.

(** A field other than the two of the key does not enter the key. *)
Lemma record_key_set (r : record) (field : string) (v : option string) :
  field <> "Game Name" -> field <> "Game Page Link" ->
  record_key (set_field field v r) = record_key r.
Proof.
  intros H1 H2. unfold record_key. now rewrite !get_set_other.
Qed.



Lemma row_cells_inv (fs : string -> result bool) (n l : string) (count : nat)
      (first : record) (c : cells) :
  row_cells fs n l count first = Ok c ->
  exists thumb_url b,
    unquote (get first "Thumbnail" (Some "")) = Ok thumb_url
    /\ on_disk fs thumb_url = Ok b
    /\ c = {| img := if b then img_html thumb_url else "N/A";
              title_cell :=
                title_anchor (safe_html (Some (Py.or_else (Some l) "#")))
                             (safe_html (Some (Py.or_else (Some n) "N/A")))
                             (count_suffix count)
                  ++ details_html
                       (safe_html (get first "Description" (Some "")));
              author := safe_html (get first "Author" (Some ""));
              category := make_chips (get first "Category" (Some ""));
              genre := make_chips (get first "Genre" (Some ""));
              tags := make_chips (get first "Tags" (Some ""));
              price := safe_text (get first "Price" (Some "")) |}.
Proof.
  unfold row_cells, on_disk.
  destruct (unquote (get first "Thumbnail" (Some ""))) as [t|];
    cbn [bind]; [|discriminate].
  destruct (if Py.truthy t then fs t else Ok false) as [b|] eqn:E;
    cbn [bind]; [|discriminate].
  intros H. injection H as <-. exists t, b. repeat split. exact E.
Qed.


(** The title cell of a row that is rendered. *)
Lemma row_cells_title (fs : string -> result bool) (n l : string)
      (count : nat) (first : record) (c : cells) :
  row_cells fs n l count first = Ok c ->
  title_cell c
  = title_anchor (safe_html (Some (Py.or_else (Some l) "#")))
                 (safe_html (Some (Py.or_else (Some n) "N/A")))
                 (count_suffix count)
      ++ details_html (safe_html (get first "Description" (Some ""))).
Proof.
  intros H. apply row_cells_inv in H.
  destruct H as [t [b [_ [_ ->]]]]. reflexivity.
Qed.

(** The other cells of a row that is rendered. *)
Lemma row_cells_fields (fs : string -> result bool) (n l : string)
      (count : nat) (first : record) (c : cells) :
  row_cells fs n l count first = Ok c ->
  author c = safe_html (get first "Author" (Some ""))
  /\ category c = make_chips (get first "Category" (Some ""))
  /\ genre c = make_chips (get first "Genre" (Some ""))
  /\ tags c = make_chips (get first "Tags" (Some ""))
  /\ price c = safe_text (get first "Price" (Some "")).
Proof.
  intros H. apply row_cells_inv in H.
  destruct H as [t [b [_ [_ ->]]]]. cbn. auto.
Qed.

Lemma row_cells_img (fs : string -> result bool) (n l : string) (count : nat)
      (first : record) (c : cells) :
  row_cells fs n l count first = Ok c ->
  exists thumb_url b,
    unquote (get first "Thumbnail" (Some "")) = Ok thumb_url
    /\ on_disk fs thumb_url = Ok b
    /\ img c = if b then img_html thumb_url else "N/A".
Proof.
  intros H. apply row_cells_inv in H.
  destruct H as [t [b [Ht [Hb ->]]]]. cbn. eauto.
Qed.

(* ------------------------------------------------------------------ *)
(** ** From the records read to the rows *)

(** [build_row_list] in terms of the records and the exception that the
    reader yields. *)
Lemma build_row_list_read (fs : string -> result bool) (lines : list csv_line)
      (recs : list record) (err : option exn) :
  dict_reader lines = (recs, err) ->
  build_row_list fs (Some lines)
  = (g <- group_records recs [] ;;
     match err with
     | Some e => Raise e
     | None => rows_of_groups fs g
     end).
Proof.
  intros H. unfold build_row_list, read_and_group. rewrite H.
  destruct (group_records recs []); simpl; [|reflexivity].
  now destruct err.
Qed.

Lemma members_of_in (k : key) (prs : list (key * record)) (r : record) :
  In r (members_of k prs) <-> In (k, r) prs.
Proof.
  unfold members_of. rewrite in_map_iff. split.
  - intros [[k0 r0] [E Hin]]. simpl in E. subst r0.
    apply filter_In in Hin. destruct Hin as [Hin Hk].
    cbn [fst] in Hk. apply key_eqb_eq in Hk. now subst k0.
  - intros Hin. exists (k, r). split; [reflexivity|].
    apply filter_In. split; [exact Hin|]. apply key_eqb_refl.
Qed.


(** An item of the grouped dict holds the records of its key, in input
    order, and at least one. *)
Lemma grouped_item (prs : list (key * record)) (k : key) (rs : list record) :
  In (k, rs) (group_pairs prs []) ->
  rs = members_of k prs /\ rs <> [].
Proof.
  intros Hin. split.
  - rewrite <- (records_of_item (group_pairs prs []) k rs).
    + now rewrite group_pairs_records.
    + apply group_pairs_nodup. constructor.
    + exact Hin.
  - assert (H : Forall (fun it => snd it <> []) (group_pairs prs [])).
    { apply group_pairs_nonempty. constructor. }
    rewrite Forall_forall in H. exact (H _ Hin).
Qed.

Lemma build_row_by_summary (fs : string -> result bool) (item : key * list record) :
  build_row fs item = build_row_summary fs (fst item, summary (snd item)).
Proof.
  destruct item as [[n l] [|r rs]]; reflexivity.
Qed.

Lemma rows_of_groups_by_summary (fs : string -> result bool) (g : groups) :
  rows_of_groups fs g
  = mapM (build_row_summary fs) (sorted (map_items summary g)).
Proof.
  unfold rows_of_groups. rewrite sorted_map_items. unfold map_items.
  rewrite mapM_map. apply mapM_ext. intros it _.
  apply build_row_by_summary.
Qed.

Lemma summary_snoc (rs : list record) (r r' : record) :
  rs <> [] -> summary (rs ++ [r]) = summary (rs ++ [r']).
Proof.
  destruct rs as [|r0 rs]; [congruence|]. intros _. unfold summary.
  simpl. now rewrite !length_app.
Qed.

Lemma summary_snoc_same (rs rs' : list record) (r : record) :
  summary rs = summary rs' -> summary (rs ++ [r]) = summary (rs' ++ [r]).
Proof.
  unfold summary. intros H. inversion H as [[Hl Hh]].
  rewrite !length_app, Hl. f_equal.
  destruct rs, rs'; simpl in *; congruence.
Qed.

(** Appending to a group that is not empty: the summaries do not depend
    on the record appended. *)
Lemma append_to_summary (k : key) (r r' : record) (g : groups) :
  records_of k g <> [] ->
  map_items summary (append_to k r g) = map_items summary (append_to k r' g).
Proof.
  induction g as [|[k0 rs] g IH]; intros H.
  - destruct H. reflexivity.
  - rewrite records_of_cons in H. cbn [append_to].
    destruct (key_eqb k k0); cbn [map_items map fst snd].
    + f_equal. f_equal. now apply summary_snoc.
    + f_equal. now apply IH.
Qed.

Lemma append_to_summary_same (k : key) (r : record) (g g' : groups) :
  map_items summary g = map_items summary g' ->
  map_items summary (append_to k r g) = map_items summary (append_to k r g').
Proof.
  revert g'. induction g as [|[k0 rs] g IH]; intros [|[k0' rs'] g'] H;
    try discriminate; [reflexivity|].
  cbn [map_items map fst snd] in H.
  assert (Hk : k0 = k0') by congruence.
  assert (Hs : summary rs = summary rs') by congruence.
  assert (Hg : map_items summary g = map_items summary g')
    by (unfold map_items; congruence).
  subst k0'. cbn [append_to].
  destruct (key_eqb k k0); cbn [map_items map fst snd].
  - f_equal; [|exact Hg]. f_equal. now apply summary_snoc_same.
  - f_equal; [now rewrite Hs|]. now apply IH.
Qed.

Lemma group_pairs_summary_same (prs : list (key * record)) (g g' : groups) :
  map_items summary g = map_items summary g' ->
  map_items summary (group_pairs prs g)
  = map_items summary (group_pairs prs g').
Proof.
  unfold group_pairs. revert g g'.
  induction prs as [|[k r] prs IH]; intros g g' H; simpl; [exact H|].
  now apply IH, append_to_summary_same.
Qed.


Lemma Forall2_same_length {A B : Type} (P : A -> B -> Prop)
      (l : list A) (bs : list B) :
  Forall2 P l bs -> List.length l = List.length bs.
Proof. induction 1; simpl; congruence. Qed.


Lemma build_row_inv (fs : string -> result bool) (item : key * list record)
      (row : string) :
  build_row fs item = Ok row ->
  exists first c,
    hd_error (snd item) = Some first
    /\ row_cells fs (fst (fst item)) (snd (fst item))
                 (List.length (snd item)) first = Ok c
    /\ row = row_html c.
Proof.
  destruct item as [[n l] [|r rs]]; simpl; [discriminate|].
  destruct (row_cells fs n l (S (List.length rs)) r) as [c|] eqn:E;
    simpl; [|discriminate].
  intros H. inversion H. eauto.
Qed.

Lemma count_suffix_cases (n : nat) :
  (n = 1 -> count_suffix n = "")
  /\ (1 < n -> count_suffix n = " (" ++ Py.str_of_nat n ++ ")").
Proof.
  unfold count_suffix. split.
  - intros ->. reflexivity.
  - intros H. apply Nat.ltb_lt in H. now rewrite H.
Qed.



(* ------------------------------------------------------------------ *)
(** ** Rows, groups and their order *)

Lemma group_pairs_app (p1 p2 : list (key * record)) (g : groups) :
  group_pairs (p1 ++ p2) g = group_pairs p2 (group_pairs p1 g).
Proof. unfold group_pairs. apply fold_left_app. Qed.

(** Replacing a record that is not the first of its key leaves the
    summaries of the groups as they are. *)
Lemma group_pairs_later_duplicate (ks1 ks2 : list key) (k : key)
      (l1 l2 : list record) (r r' r0 : record) :
  List.length ks1 = List.length l1 ->
  In (k, r0) (combine ks1 l1) ->
  map_items summary
            (group_pairs (combine (ks1 ++ k :: ks2) (l1 ++ r :: l2)) [])
  = map_items summary
              (group_pairs (combine (ks1 ++ k :: ks2) (l1 ++ r' :: l2)) []).
Proof.
  intros Hlen Hin.
  rewrite !combine_app_eq by exact Hlen. cbn [combine].
  rewrite !group_pairs_app.
  change (group_pairs ((k, r) :: combine ks2 l2)
                      (group_pairs (combine ks1 l1) []))
    with (group_pairs (combine ks2 l2)
                      (append_to k r (group_pairs (combine ks1 l1) []))).
  change (group_pairs ((k, r') :: combine ks2 l2)
                      (group_pairs (combine ks1 l1) []))
    with (group_pairs (combine ks2 l2)
                      (append_to k r' (group_pairs (combine ks1 l1) []))).
  apply group_pairs_summary_same, append_to_summary.
  rewrite group_pairs_records. cbn [records_of Dict.get Dict.lookup app].
  apply members_of_in in Hin. intros E. rewrite E in Hin. destruct Hin.
Qed.

(** C7. A row is computed from the key of its group, the number of its
    records and the first of them only; so changing a field other than
    Game Name and Game Page Link in a record that comes after another
    record of the same key leaves the output of [build_rows] as it is. *)
Theorem later_duplicate_fields_ignored :
  forall (fs : string -> result bool) (lines lines' : list csv_line)
         (l1 l2 : list record) (r r0 : record) (err : option exn)
         (field : string) (v : option string),
    dict_reader lines = (l1 ++ r :: l2, err)%list ->
    dict_reader lines' = (l1 ++ set_field field v r :: l2, err)%list ->
    In r0 l1 ->
    record_key r0 = record_key r ->
    field <> "Game Name" ->
    field <> "Game Page Link" ->
    build_rows fs (Some lines') = build_rows fs (Some lines)
    /\ (forall item : key * list record,
           build_row fs item
           = build_row_summary fs (fst item,
                                   (List.length (snd item),
                                    hd_error (snd item)))).
Proof.
  intros fs lines lines' l1 l2 r r0 err field v Hread Hread' Hin Hkey Hf1 Hf2.
  split; [|intros item; apply build_row_by_summary].
  unfold build_rows.
  rewrite (build_row_list_read fs lines Hread),
          (build_row_list_read fs lines' Hread').
  rewrite !group_records_pairs, !mapM_app. cbn [mapM].
  rewrite (record_key_set r v Hf1 Hf2).
  destruct (mapM record_key l1) as [ks1|e1] eqn:E1; [|reflexivity].
  destruct (record_key r) as [k|e] eqn:Er.
  - destruct (mapM record_key l2) as [ks2|e2]; [|reflexivity].
    cbn [bind]. destruct err as [e|]; [reflexivity|].
    rewrite !rows_of_groups_by_summary.
    rewrite (group_pairs_later_duplicate ks1 ks2 k l1 l2
               (set_field field v r) r r0); [reflexivity | |].
    + exact (mapM_length _ _ E1).
    + exact (mapM_in_combine _ _ _ E1 Hin Hkey).
  - reflexivity.
Qed.

(* ------------------------------------------------------------------ *)
(** ** Stripping, splitting and escaping *)

Lemma lstrip_all_space (s : string) :
  all_space s = true -> Py.lstrip s = "".
Proof.
  induction s as [|c s IH]; simpl; [reflexivity|].
  intros H. apply andb_true_iff in H. destruct H as [Hc Hs].
  rewrite Hc. now apply IH.
Qed.

Lemma lstrip_empty (s : string) : Py.lstrip s = "" -> all_space s = true.
Proof.
  induction s as [|c s IH]; simpl; [reflexivity|].
  destruct (Py.isspace c); [exact IH | discriminate].
Qed.

Lemma rstrip_all_space (s : string) :
  all_space s = true -> Py.rstrip s = "".
Proof.
  induction s as [|c s IH]; simpl; [reflexivity|].
  intros H. apply andb_true_iff in H. destruct H as [Hc Hs].
  now rewrite (IH Hs), Hc.
Qed.

Lemma rstrip_empty (s : string) : Py.rstrip s = "" -> all_space s = true.
Proof.
  induction s as [|c s IH]; simpl; [reflexivity|].
  destruct (Py.rstrip s); [|discriminate].
  destruct (Py.isspace c); [|discriminate].
  intros _. now rewrite IH.
Qed.

(** What [rstrip] leaves does not end with a blank. *)
Lemma rstrip_not_blank (s : string) :
  all_space (Py.rstrip s) = true -> Py.rstrip s = "".
Proof.
  induction s as [|c s IH]; simpl; [reflexivity|].
  destruct (Py.rstrip s) as [|c' r'] eqn:E.
  - destruct (Py.isspace c) eqn:Ec; [reflexivity|].
    simpl. rewrite Ec. discriminate.
  - intros H. cbn [all_space] in H. apply andb_true_iff in H.
    destruct H as [_ H]. specialize (IH H). discriminate.
Qed.

Lemma strip_empty_iff (s : string) : Py.strip s = "" <-> all_space s = true.
Proof.
  unfold Py.strip. split.
  - intros H. apply rstrip_empty, rstrip_not_blank, lstrip_empty, H.
  - intros H. now rewrite (rstrip_all_space s H).
Qed.

Lemma truthy_false (s : string) : Py.truthy s = false <-> s = "".
Proof. destruct s; simpl; split; congruence. Qed.

Lemma split_nonempty (sep : ascii) (s : string) : Py.split sep s <> [].
Proof.
  destruct s as [|c s]; simpl; [discriminate|].
  destruct (Ascii.eqb c sep); [discriminate|].
  destruct (Py.split sep s); discriminate.
Qed.

(** The pieces of a text of blanks and commas are blank. *)
Lemma split_blank_or_comma (s : string) :
  blank_or_comma s = true ->
  Forall (fun p => all_space p = true) (Py.split "," s).
Proof.
  induction s as [|c s IH]; simpl; intros H.
  - repeat constructor.
  - apply andb_true_iff in H. destruct H as [Hc Hs].
    specialize (IH Hs).
    destruct (Ascii.eqb c ",") eqn:E.
    + now constructor.
    + rewrite orb_false_r in Hc.
      destruct (Py.split "," s) as [|p ps]; [repeat constructor; simpl|].
      * now rewrite Hc.
      * inversion IH; subst. constructor; [|assumption].
        simpl. now rewrite Hc.
Qed.

Lemma all_space_blank_or_comma (s : string) :
  all_space s = true -> blank_or_comma s = true.
Proof.
  induction s as [|c s IH]; simpl; [reflexivity|].
  intros H. apply andb_true_iff in H. destruct H as [Hc Hs].
  now rewrite Hc, IH.
Qed.

Lemma filter_blank_pieces (l : list string) :
  Forall (fun p => all_space p = true) l ->
  filter Py.truthy (map Py.strip l) = [].
Proof.
  induction 1 as [|p l Hp Hl IH]; simpl; [reflexivity|].
  apply strip_empty_iff in Hp. now rewrite Hp.
Qed.

Lemma str_app_assoc (a b c : string) : (a ++ b) ++ c = a ++ (b ++ c).
Proof.
  induction a as [|x a IH]; simpl; [reflexivity|]. now rewrite IH.
Qed.

Lemma replace_app (old : ascii) (new a b : string) :
  Py.replace old new (a ++ b) = Py.replace old new a ++ Py.replace old new b.
Proof.
  induction a as [|c a IH]; simpl; [reflexivity|].
  rewrite IH. destruct (Ascii.eqb c old); [|reflexivity].
  now rewrite str_app_assoc.
Qed.

Lemma html_escape_cons (c : ascii) (s : string) :
  Py.html_escape (String c s) true = escape_char c ++ Py.html_escape s true.
Proof.
  unfold Py.html_escape, escape_char.
  destruct (Ascii.eqb_spec c "&") as [-> | N1]; [reflexivity|].
  destruct (Ascii.eqb_spec c "<") as [-> | N2]; [reflexivity|].
  destruct (Ascii.eqb_spec c ">") as [-> | N3]; [reflexivity|].
  destruct (Ascii.eqb_spec c "034") as [-> | N4]; [reflexivity|].
  destruct (Ascii.eqb_spec c "'") as [-> | N5]; [reflexivity|].
  apply Ascii.eqb_neq in N1, N2, N3, N4, N5.
  cbn [Py.replace]. rewrite N1. cbn [Py.replace]. rewrite N2.
  cbn [Py.replace]. rewrite N3. cbn [Py.replace]. rewrite N4.
  cbn [Py.replace]. rewrite N5. reflexivity.
Qed.

Lemma html_escape_each (s : string) : Py.html_escape s true = escape_each s.
Proof.
  induction s as [|c s IH]; [reflexivity|].
  rewrite html_escape_cons, IH. reflexivity.
Qed.

(** A chip of [make_chips] is the anchor around the tag escaped in one
    pass. *)
Lemma chip_is_text (tag : string) : chip tag = chip_text tag.
Proof.
  unfold chip, chip_text, safe_html. rewrite html_escape_each.
  now destruct tag.
Qed.

Lemma map_filter_strip (l : list string) :
  map Py.strip (filter (fun t => Py.truthy (Py.strip t)) l)
  = filter Py.truthy (map Py.strip l).
Proof.
  induction l as [|p l IH]; simpl; [reflexivity|].
  destruct (Py.truthy (Py.strip p)); simpl; now rewrite IH.
Qed.

(** [make_chips] follows the rule of the design. *)
Lemma make_chips_by_rule (cell : string) :
  make_chips (Some cell) = chips_by_rule cell.
Proof.
  unfold make_chips, chips_by_rule. cbv zeta. rewrite map_filter_strip.
  rewrite (map_ext chip chip_text chip_is_text).
  destruct (Py.truthy cell) eqn:Ec; cbn [negb orb].
  - destruct (Py.truthy (Py.strip cell)) eqn:Es; cbn [negb].
    + now destruct (filter Py.truthy (map Py.strip (Py.split "," cell))).
    + apply truthy_false, strip_empty_iff, all_space_blank_or_comma in Es.
      now rewrite (filter_blank_pieces (split_blank_or_comma cell Es)).
  - apply truthy_false in Ec. subst cell. reflexivity.
Qed.

Lemma make_chips_blank (cell : string) :
  blank_or_comma cell = true -> make_chips (Some cell) = "N/A".
Proof.
  intros H. rewrite make_chips_by_rule. unfold chips_by_rule.
  now rewrite (filter_blank_pieces (split_blank_or_comma cell H)).
Qed.

Lemma contains_app (c : ascii) (s t : string) :
  Py.contains c (s ++ t) = Py.contains c s || Py.contains c t.
Proof.
  induction s as [|d s IH]; simpl; [reflexivity|].
  now rewrite IH, orb_assoc.
Qed.

(** A replacement removes the character replaced, and brings in no
    character that its new text does not hold. *)
Lemma contains_replace (c old : ascii) (new s : string) :
  Py.contains c new = false ->
  c = old \/ Py.contains c s = false ->
  Py.contains c (Py.replace old new s) = false.
Proof.
  intros Hnew H. induction s as [|d s IH]; simpl; [reflexivity|].
  assert (IH' : Py.contains c (Py.replace old new s) = false).
  { apply IH. destruct H as [H | H]; [now left | right].
    simpl in H. now apply orb_false_iff in H. }
  destruct (Ascii.eqb d old) eqn:E.
  - now rewrite contains_app, Hnew, IH'.
  - simpl. rewrite IH', orb_false_r.
    destruct H as [-> | H]; [exact E|].
    simpl in H. now apply orb_false_iff in H.
Qed.

(** The text that [safe_html] returns holds none of the characters that
    open or close markup or an attribute value. *)
Lemma safe_html_no_markup (v : option string) :
  Py.contains "<" (safe_html v) = false
  /\ Py.contains ">" (safe_html v) = false
  /\ Py.contains "034" (safe_html v) = false
  /\ Py.contains "'" (safe_html v) = false.
Proof.
  unfold safe_html, Py.html_escape.
  repeat split; repeat (apply contains_replace; [reflexivity|]; auto; right).
Qed.

Lemma replace_empty (old : ascii) (new s : string) :
  new <> "" -> Py.replace old new s = "" -> s = "".
Proof.
  intros Hnew. destruct s as [|c s]; simpl; [reflexivity|].
  destruct (Ascii.eqb c old); [|discriminate].
  destruct new; [congruence | discriminate].
Qed.

Lemma safe_html_empty (v : option string) :
  safe_html v = "" <-> Py.or_else v "" = "".
Proof.
  unfold safe_html, Py.html_escape. split.
  - intros H. repeat (apply replace_empty in H; [|discriminate]). exact H.
  - intros ->. reflexivity.
Qed.

(* ------------------------------------------------------------------ *)
(** ** The cells of a row *)

Lemma chip_head (t : string) : exists s, chip_text t = String "<" s.
Proof. unfold chip_text. simpl. eauto. Qed.

Lemma safe_text_nonempty (v : option string) : safe_text v <> "".
Proof.
  unfold safe_text. cbv zeta.
  destruct (Py.strip (Py.or_else v "")); simpl; discriminate.
Qed.

Lemma make_chips_nonempty (v : option string) : make_chips v <> "".
Proof.
  destruct v as [cell|]; [|discriminate].
  rewrite make_chips_by_rule. unfold chips_by_rule.
  destruct (filter Py.truthy (map Py.strip (Py.split "," cell)))
    as [|p ps]; [discriminate|].
  unfold Py.join. cbn [map String.concat].
  destruct (chip_head p) as [s ->].
  destruct (map chip_text ps); discriminate.
Qed.

Lemma img_html_nonempty (t : string) : img_html t <> "".
Proof. unfold img_html. simpl. discriminate. Qed.

Lemma title_anchor_nonempty (link title suffix rest : string) :
  title_anchor link title suffix ++ rest <> "".
Proof. unfold title_anchor. simpl. discriminate. Qed.

(** C10. In a row that is rendered, the Cover, Title, Category, Genre,
    Tags and Price cells are never the empty string: [safe_text] and
    [make_chips] never return it, and the cover falls back to N/A. The
    Author cell is the empty string exactly when the Author field is
    missing, [None] or empty, and such a row exists. *)
Theorem cells_nonempty_but_author :
  forall (fs : string -> result bool) (name link : string) (count : nat)
         (first : record) (c : cells),
    row_cells fs name link count first = Ok c ->
    img c <> "" /\ title_cell c <> "" /\ category c <> ""
    /\ genre c <> "" /\ tags c <> "" /\ price c <> ""
    /\ (author c = "" <-> Py.or_else (get first "Author" (Some "")) "" = "")
    /\ (forall v, safe_text v <> "")
    /\ (forall v, make_chips v <> "")
    /\ (exists c', row_cells fs name link count [] = Ok c' /\ author c' = "").
Proof.
  intros fs name link count first c Hc.
  destruct (row_cells_fields _ _ _ _ _ Hc) as [Ha [H1 [H2 [H3 H4]]]].
  destruct (row_cells_img _ _ _ _ _ Hc) as [t [b [_ [_ Himg]]]].
  rewrite (row_cells_title _ _ _ _ _ Hc), Himg, Ha, H1, H2, H3, H4.
  repeat split.
  - destruct b; [apply img_html_nonempty | discriminate].
  - apply title_anchor_nonempty.
  - apply make_chips_nonempty.
  - apply make_chips_nonempty.
  - apply make_chips_nonempty.
  - apply safe_text_nonempty.
  - apply safe_html_empty.
  - apply safe_html_empty.
  - apply safe_text_nonempty.
  - apply make_chips_nonempty.
  - eexists. split; reflexivity.
Qed.

(* ------------------------------------------------------------------ *)
(** ** The run as a whole *)

Section MainFacts.

(** The two templates and the confirmation, as in [main]. *)
Variables HTML_HEADER HTML_FOOTER DONE_MESSAGE : string.

Lemma main_cases (w : world) :
  main HTML_HEADER HTML_FOOTER DONE_MESSAGE w
  = match build_rows (path_exists w) (csv_file w) with
    | Raise e => (Raise e, w)
    | Ok rows =>
        match write_text (HTML_HEADER ++ rows ++ HTML_FOOTER) w with
        | (Raise e, w') => (Raise e, w')
        | (Ok _, w') => print DONE_MESSAGE w'
        end
    end.
Proof. reflexivity. Qed.

Lemma row_cells_fs_ext (fs fs' : string -> result bool) (n l : string)
      (count : nat) (first : record) :
  (forall p, fs p = fs' p) ->
  row_cells fs n l count first = row_cells fs' n l count first.
Proof.
  intros H. unfold row_cells.
  destruct (unquote (get first "Thumbnail" (Some ""))) as [t|]; cbn [bind];
    [|reflexivity].
  destruct (Py.truthy t); [now rewrite H | reflexivity].
Qed.

(** The rows depend on the file system through the existence of the
    thumbnail paths only. *)
Lemma build_rows_fs_ext (fs fs' : string -> result bool)
      (f : option (list csv_line)) :
  (forall p, fs p = fs' p) -> build_rows fs f = build_rows fs' f.
Proof.
  intros H. unfold build_rows, build_row_list, rows_of_groups.
  destruct (read_and_group f) as [g|]; simpl; [|reflexivity].
  rewrite (mapM_ext (build_row fs) (build_row fs')); [reflexivity|].
  intros [[n l] rs] _. unfold build_row.
  destruct (index0 rs); simpl; [|reflexivity].
  now rewrite (row_cells_fs_ext fs fs' n l (List.length rs) a H).
Qed.

End MainFacts.

(* ------------------------------------------------------------------ *)
(** ** Further properties of the helpers *)

Lemma lstrip_idem (s : string) : Py.lstrip (Py.lstrip s) = Py.lstrip s.
Proof.
  induction s as [|c s IH]; simpl; [reflexivity|].
  destruct (Py.isspace c) eqn:E; [exact IH|]. simpl. now rewrite E.
Qed.

Lemma rstrip_idem (s : string) : Py.rstrip (Py.rstrip s) = Py.rstrip s.
Proof.
  induction s as [|c s IH]; simpl; [reflexivity|].
  destruct (Py.rstrip s) as [|c' r'] eqn:E.
  - destruct (Py.isspace c) eqn:Ec; [reflexivity|]. simpl. now rewrite Ec.
  - cbn [Py.rstrip] in *. now rewrite IH.
Qed.

(** Dropping the blanks in front keeps a text without blanks at its end
    such. *)
Lemma rstrip_lstrip (t : string) :
  Py.rstrip t = t -> Py.rstrip (Py.lstrip t) = Py.lstrip t.
Proof.
  induction t as [|c t IH]; intros H; [reflexivity|].
  cbn [Py.lstrip]. destruct (Py.isspace c) eqn:Ec; [|exact H].
  apply IH. cbn [Py.rstrip] in H.
  destruct (Py.rstrip t) as [|c' r'].
  - rewrite Ec in H. discriminate.
  - now inversion H.
Qed.

Lemma rstrip_strip (s : string) : Py.rstrip (Py.strip s) = Py.strip s.
Proof. unfold Py.strip. apply rstrip_lstrip, rstrip_idem. Qed.

Lemma lstrip_strip (s : string) : Py.lstrip (Py.strip s) = Py.strip s.
Proof. unfold Py.strip. apply lstrip_idem. Qed.

Lemma strip_idem (s : string) : Py.strip (Py.strip s) = Py.strip s.
Proof.
  unfold Py.strip at 1. now rewrite rstrip_strip, lstrip_strip.
Qed.

(** X3. The text that [safe_text] returns is in normal form: it is not
    empty, it has no blank in front or at its end, and [safe_text] gives it
    back unchanged. *)
Theorem safe_text_normal_form :
  forall v : option string,
    safe_text v <> ""
    /\ Py.lstrip (safe_text v) = safe_text v
    /\ Py.rstrip (safe_text v) = safe_text v
    /\ safe_text (Some (safe_text v)) = safe_text v.
Proof.
  intros v.
  assert (H : safe_text v = "N/A"
              \/ (safe_text v = Py.strip (Py.or_else v "")
                  /\ Py.truthy (safe_text v) = true)).
  { unfold safe_text. cbv zeta.
    destruct (Py.truthy (Py.strip (Py.or_else v ""))) eqn:E; auto. }
  split; [apply safe_text_nonempty|].
  destruct H as [-> | [E T]]; [repeat split|].
  rewrite E in *. split; [apply lstrip_strip|]. split; [apply rstrip_strip|].
  pose proof (strip_idem (Py.or_else v "")) as I.
  remember (Py.strip (Py.or_else v "")) as x eqn:Ex.
  unfold safe_text. cbv zeta. cbn [Py.or_else].
  rewrite T, I, T. reflexivity.
Qed.

(** X1. The five replacements of the escaping, done one after the other
    with the ampersand first, amount to one pass that replaces each
    character once: no entity is escaped a second time. *)
Theorem safe_html_one_pass :
  forall v : option string,
    safe_html v = escape_each (Py.or_else v "")
    /\ (forall (c : ascii) (s : string),
           safe_html (Some (String c s)) = escape_char c ++ safe_html (Some s)).
Proof.
  intros v. split.
  - unfold safe_html. apply html_escape_each.
  - intros c s. unfold safe_html. cbn [Py.or_else Py.truthy].
    rewrite html_escape_cons. f_equal.
    destruct s; reflexivity.
Qed.

Lemma escape_char_cases (c : ascii) :
  (escape_char c = String c EmptyString /\ c <> "&"%char)
  \/ (c = "&"%char /\ escape_char c = "&amp;")
  \/ (c = "<"%char /\ escape_char c = "&lt;")
  \/ (c = ">"%char /\ escape_char c = "&gt;")
  \/ (c = "034"%char /\ escape_char c = "&quot;")
  \/ (c = "'"%char /\ escape_char c = "&#x27;").
Proof.
  unfold escape_char.
  destruct (Ascii.eqb_spec c "&") as [-> | N1]; [auto|].
  destruct (Ascii.eqb_spec c "<") as [-> | N2]; [auto 6|].
  destruct (Ascii.eqb_spec c ">") as [-> | N3]; [auto 6|].
  destruct (Ascii.eqb_spec c "034") as [-> | N4]; [auto 7|].
  destruct (Ascii.eqb_spec c "'") as [-> | N5]; [auto 8|].
  auto.
Qed.

Lemma escape_each_injective (s t : string) :
  escape_each s = escape_each t -> s = t.
Proof.
  revert t. induction s as [|c s IH]; intros [|d t] H.
  - reflexivity.
  - exfalso. cbn [escape_each] in H.
    destruct (escape_char_cases d) as [[E _]|[[_ E]|[[_ E]|[[_ E]|[[_ E]|[_ E]]]]]];
      rewrite E in H; discriminate.
  - exfalso. cbn [escape_each] in H.
    destruct (escape_char_cases c) as [[E _]|[[_ E]|[[_ E]|[[_ E]|[[_ E]|[_ E]]]]]];
      rewrite E in H; discriminate.
  - cbn [escape_each] in H.
    destruct (escape_char_cases c) as [[E N]|[[-> E]|[[-> E]|[[-> E]|[[-> E]|[-> E]]]]]];
      destruct (escape_char_cases d) as [[E' N']|[[-> E']|[[-> E']|[[-> E']|[[-> E']|[-> E']]]]]];
      rewrite E in H; try rewrite E' in H; simpl in H; inversion H; subst;
        try congruence; f_equal; apply IH; assumption.
Qed.

Lemma str_length_app (a b : string) :
  String.length (a ++ b) = String.length a + String.length b.
Proof.
  induction a as [|x a IH]; simpl; [reflexivity|]. now rewrite IH.
Qed.

Lemma escape_each_length (s : string) :
  String.length s <= String.length (escape_each s).
Proof.
  induction s as [|c s IH]; [apply le_n|].
  cbn [escape_each]. rewrite str_length_app.
  destruct (escape_char_cases c)
    as [[E _]|[[_ E]|[[_ E]|[[_ E]|[[_ E]|[_ E]]]]]];
    rewrite E; simpl; lia.
Qed.

(** X2. Escaping loses nothing: two texts with the same escaped form are
    the same text, and the escaped form is the text itself exactly when
    the text holds none of the five characters. *)
Theorem safe_html_injective :
  forall s t : string,
    (safe_html (Some s) = safe_html (Some t) -> s = t)
    /\ (safe_html (Some s) = s
        <-> Py.contains "&" s = false /\ Py.contains "<" s = false
            /\ Py.contains ">" s = false /\ Py.contains "034" s = false
            /\ Py.contains "'" s = false).
Proof.
  intros s t.
  assert (E : forall x, safe_html (Some x) = escape_each x).
  { intros x. unfold safe_html. rewrite html_escape_each.
    destruct x; reflexivity. }
  split.
  - rewrite !E. apply escape_each_injective.
  - rewrite E. clear E t. induction s as [|c s IH].
    + split; [intros _; repeat split | reflexivity].
    + cbn [escape_each Py.contains]. split.
      * intros H.
        pose proof (f_equal String.length H) as L.
        rewrite str_length_app in L. cbn [String.length] in L.
        pose proof (escape_each_length s) as L'.
        unfold escape_char in H, L.
        destruct (Ascii.eqb c "&"); [simpl in L; lia|].
        destruct (Ascii.eqb c "<"); [simpl in L; lia|].
        destruct (Ascii.eqb c ">"); [simpl in L; lia|].
        destruct (Ascii.eqb c "034"); [simpl in L; lia|].
        destruct (Ascii.eqb c "'"); [simpl in L; lia|].
        simpl in H. injection H as H. apply IH in H. simpl. exact H.
      * intros H. rewrite !orb_false_iff in H.
        destruct H as [[N1 H1] [[N2 H2] [[N3 H3] [[N4 H4] [N5 H5]]]]].
        unfold escape_char. rewrite N1, N2, N3, N4, N5. simpl. f_equal.
        apply IH. auto.
Qed.

Lemma blank_pieces_blank_or_comma (s : string) :
  Forall (fun p => all_space p = true) (Py.split "," s) ->
  blank_or_comma s = true.
Proof.
  induction s as [|c s IH]; [reflexivity|].
  cbn [Py.split blank_or_comma].
  destruct (Ascii.eqb c ",") eqn:E; intros H.
  - inversion H; subst. rewrite orb_true_r. now apply IH.
  - destruct (Py.split "," s) as [|p ps] eqn:Es.
    + now destruct (split_nonempty "," s).
    + inversion H as [|? ? Hp Hps]; subst. cbn [all_space] in Hp.
      apply andb_true_iff in Hp. destruct Hp as [Hc Hp].
      rewrite Hc. apply IH. now constructor.
Qed.

Lemma no_piece_left (l : list string) :
  filter Py.truthy (map Py.strip l) = [] ->
  Forall (fun p => all_space p = true) l.
Proof.
  induction l as [|p l IH]; cbn [map filter]; intros H; [constructor|].
  destruct (Py.truthy (Py.strip p)) eqn:E; [discriminate|].
  constructor; [|now apply IH].
  now apply strip_empty_iff, truthy_false.
Qed.

(** X4. [make_chips] returns the text N/A only for a field that is
    [None] or made of blanks and commas: a field with one other character
    always gives chips, also the field N/A itself. *)
Theorem make_chips_na_iff :
  forall v : option string,
    make_chips v = "N/A"
    <-> match v with
        | None => True
        | Some cell => blank_or_comma cell = true
        end.
Proof.
  intros [cell|]; [|split; reflexivity].
  split; [|apply make_chips_blank].
  rewrite make_chips_by_rule. unfold chips_by_rule.
  destruct (filter Py.truthy (map Py.strip (Py.split "," cell)))
    as [|p ps] eqn:E.
  - intros _. now apply blank_pieces_blank_or_comma, no_piece_left.
  - unfold Py.join. cbn [map String.concat].
    destruct (chip_head p) as [s ->].
    destruct (map chip_text ps); discriminate.
Qed.

(* ------------------------------------------------------------------ *)
(** ** Further properties of the rows *)

Lemma rstrip_app_nonempty (a b : string) :
  Py.rstrip b <> "" -> Py.rstrip (a ++ b) <> "".
Proof.
  intros H. induction a as [|c a IH]; [exact H|].
  cbn [append Py.rstrip]. destruct (Py.rstrip (a ++ b)); [contradiction|].
  discriminate.
Qed.

(** Blanks are dropped from the end only: a text in front of one that
    does not end up empty stays whole. *)
Lemma rstrip_app (a b : string) :
  Py.rstrip b <> "" -> Py.rstrip (a ++ b) = a ++ Py.rstrip b.
Proof.
  intros H. induction a as [|c a IH]; [reflexivity|].
  cbn [append Py.rstrip]. rewrite IH.
  destruct (a ++ Py.rstrip b) eqn:E; [|reflexivity].
  destruct a; [contradiction | discriminate].
Qed.

(** X5. The [rstrip] at the end of the row template takes away the line
    break and the indentation after the closing tag and nothing else,
    whatever the cells hold: a row is the template up to that tag. *)
Theorem row_html_keeps_cells :
  forall c : cells,
    row_html c
    = Py.nl ++ "        <tr>" ++ Py.nl
        ++ td (img c) ++ td (title_cell c) ++ td (author c)
        ++ td (category c) ++ td (genre c) ++ td (tags c) ++ td (price c)
        ++ "        </tr>".
Proof.
  intros c. unfold row_html.
  assert (Htail : Py.rstrip ("        </tr>" ++ Py.nl ++ "        ")
                  = "        </tr>") by reflexivity.
  remember ("        </tr>" ++ Py.nl ++ "        ") as tail eqn:Et.
  clear Et.
  repeat (rewrite rstrip_app;
          [|repeat apply rstrip_app_nonempty; rewrite Htail; discriminate]).
  now rewrite Htail.
Qed.

Lemma members_of_filter (k : key) (recs : list record) (ks : list key) :
  mapM record_key recs = Ok ks ->
  members_of k (combine ks recs) = filter (has_key k) recs.
Proof.
  unfold members_of. revert ks.
  induction recs as [|r recs IH]; intros ks H.
  - now destruct ks.
  - cbn [mapM] in H. unfold has_key at 1. cbn [filter].
    destruct (record_key r) as [k0|] eqn:Er; [|discriminate].
    destruct (mapM record_key recs) as [ks0|]; [|discriminate].
    cbn [bind] in H. injection H as <-.
    cbn [combine filter fst]. fold (has_key k).
    destruct (key_eqb k0 k); cbn [map snd]; now rewrite (IH ks0 eq_refl).
Qed.

Lemma append_to_concat (k : key) (r : record) (g : groups) :
  Permutation (List.concat (map snd (append_to k r g)))
              (List.concat (map snd g) ++ [r])%list.
Proof.
  induction g as [|[k0 rs] g IH]; cbn [append_to].
  - reflexivity.
  - destruct (key_eqb k k0); cbn [map snd List.concat].
    + rewrite <- !app_assoc. apply Permutation_app_head, Permutation_app_comm.
    + rewrite IH. now rewrite app_assoc.
Qed.

Lemma group_pairs_concat (prs : list (key * record)) (g : groups) :
  Permutation (List.concat (map snd (group_pairs prs g)))
              (List.concat (map snd g) ++ map snd prs)%list.
Proof.
  unfold group_pairs. revert g.
  induction prs as [|[k r] prs IH]; intros g; cbn [fold_left map snd fst].
  - now rewrite app_nil_r.
  - rewrite IH, append_to_concat, <- app_assoc. reflexivity.
Qed.

Lemma map_snd_combine {A B : Type} (l : list A) (l' : list B) :
  List.length l = List.length l' -> map snd (combine l l') = l'.
Proof.
  revert l'. induction l as [|a l IH]; intros [|b l']; simpl;
    try discriminate; intros H; [reflexivity|].
  f_equal. apply IH. now inversion H.
Qed.

(** X6. When the records are read and grouped without an exception, the
    groups have distinct keys, each group holds exactly the records of
    its key, in input order and at least one, and the groups together
    hold every record once. *)
Theorem groups_partition_input :
  forall (lines : list csv_line) (g : groups),
    read_and_group (Some lines) = Ok g ->
    NoDup (map fst g)
    /\ Forall (fun it =>
                 snd it <> []
                 /\ snd it = filter (has_key (fst it)) (fst (dict_reader lines)))
              g
    /\ Permutation (List.concat (map snd g)) (fst (dict_reader lines)).
Proof.
  intros lines g. unfold read_and_group.
  destruct (dict_reader lines) as [recs err]. cbn [fst].
  rewrite group_records_pairs.
  destruct (mapM record_key recs) as [ks|] eqn:Hks; [|discriminate].
  cbn [bind]. destruct err; [discriminate|]. intros H. injection H as <-.
  pose proof (mapM_length _ _ Hks) as Hlen.
  split; [apply group_pairs_nodup; constructor|]. split.
  - apply Forall_forall. intros [k rs] Hin. cbn [fst snd].
    apply grouped_item in Hin. destruct Hin as [-> Hne].
    split; [exact Hne|]. now apply members_of_filter.
  - rewrite group_pairs_concat. cbn [map List.concat app].
    now rewrite map_snd_combine.
Qed.

(* ------------------------------------------------------------------ *)
(** ** When [build_rows] raises *)

Lemma record_key_ok_iff (r : record) :
  (exists k, record_key r = Ok k)
  <-> get r "Game Name" (Some "") <> None
      /\ get r "Game Page Link" (Some "") <> None.
Proof.
  unfold record_key.
  destruct (get r "Game Name" (Some "")) as [n|];
    destruct (get r "Game Page Link" (Some "")) as [l|]; cbn; split;
      try (intros [k H]; discriminate); try (intros [H1 H2]; congruence).
  - intros _. split; discriminate.
  - eauto.
Qed.

Lemma record_key_raises (r : record) (e : exn) :
  record_key r = Raise e -> e = AttributeError.
Proof.
  unfold record_key.
  destruct (get r "Game Name" (Some "")) as [n|];
    destruct (get r "Game Page Link" (Some "")) as [l|]; cbn; congruence.
Qed.

Lemma mapM_raise {A B : Type} (f : A -> result B) (l : list A) (a : A)
      (e0 : exn) :
  (forall x e, f x = Raise e -> e = e0) ->
  In a l -> f a = Raise e0 -> mapM f l = Raise e0.
Proof.
  intros Hall. induction l as [|x l IH]; intros Hin Ha; [destruct Hin|].
  cbn [mapM]. destruct (f x) as [b|e] eqn:Ex.
  - destruct Hin as [-> | Hin]; [congruence|].
    cbn [bind]. now rewrite (IH Hin Ha).
  - cbn [bind]. f_equal. eauto.
Qed.

Lemma mapM_ok_in {A B : Type} (f : A -> result B) (l : list A) (bs : list B)
      (a : A) :
  mapM f l = Ok bs -> In a l -> exists b, f a = Ok b.
Proof.
  revert bs. induction l as [|x l IH]; intros bs H Hin; [destruct Hin|].
  cbn [mapM] in H. destruct (f x) as [b|] eqn:Ex; [|discriminate].
  destruct (mapM f l) as [bs0|]; [|discriminate].
  destruct Hin as [<- | Hin]; eauto.
Qed.

(** X7. One record with [None] for Game Name or Game Page Link, anywhere
    among the records read, makes [build_rows] raise AttributeError,
    whatever the other records, the reader and the file system do. *)
Theorem bad_key_aborts :
  forall (fs : string -> result bool) (lines : list csv_line) (r : record),
    In r (fst (dict_reader lines)) ->
    get r "Game Name" (Some "") = None
    \/ get r "Game Page Link" (Some "") = None ->
    build_rows fs (Some lines) = Raise AttributeError.
Proof.
  intros fs lines r Hin Hnone.
  destruct (dict_reader lines) as [recs err] eqn:Hread. cbn [fst] in Hin.
  unfold build_rows. rewrite (build_row_list_read fs lines Hread).
  rewrite group_records_pairs.
  rewrite (mapM_raise record_key recs r record_key_raises Hin);
    [reflexivity|].
  destruct (record_key r) as [k|e] eqn:Er.
  - assert (H : exists k, record_key r = Ok k) by eauto.
    apply record_key_ok_iff in H. destruct Hnone; tauto.
  - f_equal. exact (record_key_raises r Er).
Qed.

Lemma records_of_in (k : key) (g : groups) :
  records_of k g <> [] -> In (k, records_of k g) g.
Proof.
  induction g as [|[k0 rs] g IH]; intros H.
  - destruct H. reflexivity.
  - rewrite records_of_cons in *.
    destruct (key_eqb k k0) eqn:E.
    + apply key_eqb_eq in E. subst k0. now left.
    + right. now apply IH.
Qed.

Lemma unquote_ok_iff (v : option string) :
  (exists t, unquote v = Ok t) <-> v <> None.
Proof.
  destruct v as [s|]; cbn; split; try congruence; eauto.
  intros [t H]. discriminate.
Qed.

(* ------------------------------------------------------------------ *)
(** ** What the output does not depend on *)

Lemma same_rendering_refl (r : record) : same_rendering r r.
Proof. split; reflexivity. Qed.

Lemma Forall2_same_refl (l : list record) : Forall2 same_rendering l l.
Proof. induction l; constructor; auto using same_rendering_refl. Qed.

Lemma row_cells_same (fs : string -> result bool) (n l : string) (count : nat)
      (r r' : record) :
  same_rendering r r' -> row_cells fs n l count r = row_cells fs n l count r'.
Proof.
  intros [_ H]. unfold row_cells.
  rewrite (H "Thumbnail"), (H "Description"), (H "Author"), (H "Category"),
    (H "Genre"), (H "Tags"), (H "Price"); [reflexivity | | | | | | |];
    unfold rendered_fields; simpl; tauto.
Qed.

Lemma build_row_same (fs : string -> result bool) (it it' : key * list record) :
  item_same it it' -> build_row fs it = build_row fs it'.
Proof.
  destruct it as [[n l] rs], it' as [k' rs']. intros [Hk Hrs].
  cbn [fst snd] in Hk, Hrs. subst k'. unfold build_row.
  rewrite (Forall2_same_length Hrs).
  destruct Hrs as [|r r' rs rs' Hr Hrs]; [reflexivity|].
  cbn [index0 bind]. now rewrite (row_cells_same _ _ _ _ Hr).
Qed.

Lemma append_to_same (k : key) (r r' : record) (g g' : groups) :
  same_rendering r r' -> Forall2 item_same g g' ->
  Forall2 item_same (append_to k r g) (append_to k r' g').
Proof.
  intros Hr. induction 1 as [|[k0 rs] [k0' rs'] g g' [Hk Hrs] Hg IH];
    cbn [append_to].
  - constructor; [|constructor].
    split; [reflexivity|]. cbn [snd]. constructor; [exact Hr | constructor].
  - cbn [fst snd] in Hk, Hrs. subst k0'.
    destruct (key_eqb k k0); constructor; auto.
    + split; [reflexivity|]. cbn [snd]. apply Forall2_app; auto.
    + now split.
Qed.

Lemma group_pairs_same (prs prs' : list (key * record)) :
  Forall2 pair_same prs prs' ->
  forall g g', Forall2 item_same g g' ->
               Forall2 item_same (group_pairs prs g) (group_pairs prs' g').
Proof.
  unfold group_pairs.
  induction 1 as [|[k r] [k' r'] prs prs' [Hk Hr] Hprs IH]; intros g g' Hg;
    cbn [fold_left fst snd]; [exact Hg|].
  cbn [fst snd] in Hk, Hr. subst k'. now apply IH, append_to_same.
Qed.

Lemma combine_same (ks : list key) (recs recs' : list record) :
  Forall2 same_rendering recs recs' ->
  Forall2 pair_same (combine ks recs) (combine ks recs').
Proof.
  intros H. revert ks.
  induction H as [|r r' recs recs' Hr H IH]; intros [|k ks]; cbn [combine];
    constructor; auto. now split.
Qed.

Lemma insert_item_same (x x' : key * list record) (l l' : groups) :
  item_same x x' -> Forall2 item_same l l' ->
  Forall2 item_same (insert_item x l) (insert_item x' l').
Proof.
  intros Hx. induction 1 as [|y y' l l' Hy Hl IH]; cbn [insert_item].
  - constructor; [exact Hx | constructor].
  - rewrite <- (proj1 Hx), <- (proj1 Hy).
    destruct (key_ltb (fst y) (fst x)).
    + constructor; [exact Hy | exact IH].
    + constructor; [exact Hx|]. constructor; [exact Hy | exact Hl].
Qed.

Lemma sorted_same (l l' : groups) :
  Forall2 item_same l l' -> Forall2 item_same (sorted l) (sorted l').
Proof.
  induction 1; cbn [sorted fold_right]; [constructor|].
  now apply insert_item_same.
Qed.

Lemma mapM_Forall2 {A B : Type} (f : A -> result B) (R : A -> A -> Prop)
      (l l' : list A) :
  (forall a a', R a a' -> f a = f a') -> Forall2 R l l' ->
  mapM f l = mapM f l'.
Proof.
  intros Hf. induction 1 as [|a a' l l' Ha Hl IH]; [reflexivity|].
  cbn [mapM]. now rewrite (Hf _ _ Ha), IH.
Qed.

(** The rows depend on a record through its stripped key and its seven
    rendered fields only. *)
Lemma build_row_list_same_rendering (fs : string -> result bool)
      (lines lines' : list csv_line) (recs recs' : list record)
      (err : option exn) :
  dict_reader lines = (recs, err) ->
  dict_reader lines' = (recs', err) ->
  Forall2 same_rendering recs recs' ->
  build_row_list fs (Some lines) = build_row_list fs (Some lines').
Proof.
  intros Hread Hread' Hsame.
  rewrite (build_row_list_read fs lines Hread),
          (build_row_list_read fs lines' Hread').
  rewrite !group_records_pairs.
  rewrite <- (mapM_Forall2 record_key (R := same_rendering)
                (fun a a' H => proj1 H) Hsame).
  destruct (mapM record_key recs) as [ks|]; [|reflexivity].
  cbn [bind]. destruct err; [reflexivity|]. unfold rows_of_groups.
  apply (mapM_Forall2 (build_row fs) (R := item_same) (build_row_same fs)).
  apply sorted_same, group_pairs_same; [|constructor].
  now apply combine_same.
Qed.

(** X9. The output depends on a record through its stripped key and its
    seven rendered fields only: two inputs whose records agree on these,
    one by one, give the same rows and the same result of [build_rows],
    document or exception. *)
Theorem same_rendering_same_document :
  forall (fs : string -> result bool) (lines lines' : list csv_line)
         (recs recs' : list record) (err : option exn),
    dict_reader lines = (recs, err) ->
    dict_reader lines' = (recs', err) ->
    Forall2 same_rendering recs recs' ->
    build_row_list fs (Some lines) = build_row_list fs (Some lines')
    /\ build_rows fs (Some lines) = build_rows fs (Some lines').
Proof.
  intros fs lines lines' recs recs' err Hread Hread' Hsame.
  pose proof (build_row_list_same_rendering fs lines lines' Hread Hread' Hsame)
    as H.
  split; [exact H|]. unfold build_rows. now rewrite H.
Qed.

Lemma get_set_same (r : record) (k : string) (v d : option string) :
  get (set_field k v r) k d = v.
Proof.
  unfold get, set_field, Dict.get. rewrite dict_lookup_set.
  now rewrite String.eqb_refl.
Qed.

Lemma same_rendering_edit (l1 l2 : list record) (r r' : record) :
  same_rendering r' r ->
  Forall2 same_rendering (l1 ++ r' :: l2) (l1 ++ r :: l2).
Proof.
  intros H. apply Forall2_app; [apply Forall2_same_refl|].
  constructor; [exact H | apply Forall2_same_refl].
Qed.

(** X10. A column that is none of the nine recognised ones is ignored:
    changing its value in any record, the first of a group or not, leaves
    the result of [build_rows] unchanged. *)
Theorem unrecognised_column_ignored :
  forall (fs : string -> result bool) (lines lines' : list csv_line)
         (l1 l2 : list record) (r : record) (err : option exn)
         (field : string) (v : option string),
    dict_reader lines = (l1 ++ r :: l2, err)%list ->
    dict_reader lines' = (l1 ++ set_field field v r :: l2, err)%list ->
    ~ In field recognised_fields ->
    build_rows fs (Some lines') = build_rows fs (Some lines).
Proof.
  intros fs lines lines' l1 l2 r err field v Hread Hread' Hfield.
  unfold build_rows.
  rewrite (build_row_list_same_rendering fs lines' lines Hread' Hread);
    [reflexivity|].
  apply same_rendering_edit. split.
  - apply record_key_set; intros ->; apply Hfield;
      unfold recognised_fields; simpl; tauto.
  - intros k Hk. apply get_set_other. intros ->. apply Hfield.
    now right; right.
Qed.

(** X11. Blanks around Game Name and Game Page Link do not count:
    replacing one of the two in any record by a text with the same
    stripped form leaves the result of [build_rows] unchanged. *)
Theorem key_padding_ignored :
  forall (fs : string -> result bool) (lines lines' : list csv_line)
         (l1 l2 : list record) (r : record) (err : option exn)
         (field s s' : string),
    dict_reader lines = (l1 ++ r :: l2, err)%list ->
    dict_reader lines' = (l1 ++ set_field field (Some s') r :: l2, err)%list ->
    field = "Game Name" \/ field = "Game Page Link" ->
    get r field (Some "") = Some s ->
    Py.strip s' = Py.strip s ->
    build_rows fs (Some lines') = build_rows fs (Some lines).
Proof.
  intros fs lines lines' l1 l2 r err field s s' Hread Hread' Hfield Hget Hs.
  unfold build_rows.
  rewrite (build_row_list_same_rendering fs lines' lines Hread' Hread);
    [reflexivity|].
  apply same_rendering_edit. split.
  - unfold record_key.
    destruct Hfield as [-> | ->]; rewrite get_set_same, Hget;
      rewrite get_set_other by discriminate; cbn [strip_method];
        now rewrite Hs.
  - intros k Hk. apply get_set_other. intros ->.
    unfold rendered_fields in Hk. simpl in Hk.
    destruct Hfield as [-> | ->]; intuition discriminate.
Qed.

(* ------------------------------------------------------------------ *)
(** ** The cover, the escaped cells and the empty table *)


(** X14. In a row that is rendered the Author cell, and the link, the
    title and the description inside the Title cell, hold none of the
    characters that open or close markup or an attribute value. *)
Theorem escaped_cells_hold_no_markup :
  forall (fs : string -> result bool) (name link : string) (count : nat)
         (first : record) (c : cells),
    row_cells fs name link count first = Ok c ->
    no_markup (author c)
    /\ exists href title description,
        title_cell c
        = title_anchor href title (count_suffix count)
            ++ details_html description
        /\ no_markup href /\ no_markup title /\ no_markup description.
Proof.
  intros fs name link count first c Hc. unfold no_markup.
  destruct (row_cells_fields _ _ _ _ _ Hc) as [Ha _].
  split; [rewrite Ha; apply safe_html_no_markup|].
  exists (safe_html (Some (Py.or_else (Some link) "#"))),
    (safe_html (Some (Py.or_else (Some name) "N/A"))),
    (safe_html (get first "Description" (Some ""))).
  split; [apply (row_cells_title _ _ _ _ _ Hc)|].
  repeat split; apply safe_html_no_markup.
Qed.

(* ------------------------------------------------------------------ *)
(** ** The records of the reader *)

Lemma lookup_set_other (d : record) (k k' : string) (v : option string) :
  k <> k' ->
  Dict.lookup String.eqb k (Dict.set String.eqb k' v d)
  = Dict.lookup String.eqb k d.
Proof.
  intros H. rewrite dict_lookup_set.
  apply String.eqb_neq in H. now rewrite H.
Qed.

Lemma lookup_after_pairs (k : string) (prs : list (string * option string))
      (d : record) :
  ~ In k (map fst prs) ->
  Dict.lookup String.eqb k
    (fold_left (fun d kv => Dict.set String.eqb (fst kv) (snd kv) d) prs d)
  = Dict.lookup String.eqb k d.
Proof.
  revert d. induction prs as [|[k0 v0] prs IH]; intros d H; [reflexivity|].
  cbn [fold_left fst snd]. rewrite IH.
  - apply lookup_set_other. intros ->. apply H. now left.
  - intros Hin. apply H. now right.
Qed.

Lemma lookup_after_none (k : string) (keys : list string) (d : record) :
  Dict.lookup String.eqb k
    (fold_left (fun d key => Dict.set String.eqb key None d) keys d)
  = if in_dec string_dec k keys then Some None
    else Dict.lookup String.eqb k d.
Proof.
  revert d. induction keys as [|x keys IH]; intros d; [reflexivity|].
  cbn [fold_left]. rewrite IH.
  destruct (in_dec string_dec k keys) as [Hin | Hnin];
    destruct (in_dec string_dec k (x :: keys)) as [Hin' | Hnin'];
    try reflexivity.
  - destruct Hnin'. now right.
  - rewrite dict_lookup_set. destruct Hin' as [-> | Hin']; [|contradiction].
    now rewrite String.eqb_refl.
  - apply lookup_set_other. intros ->. apply Hnin'. now left.
Qed.

Lemma in_skipn {A : Type} (n : nat) (l : list A) (a : A) :
  In a (skipn n l) -> In a l.
Proof.
  revert l. induction n as [|n IH]; intros [|x l]; cbn [skipn]; auto.
  intros H. right. now apply IH.
Qed.

(** X16. A column that the header does not have reads as the default of
    [get], the empty string in [build_rows], in every record, whatever
    the length of the row. *)
Theorem absent_column_reads_default :
  forall (fieldnames row : list string) (k : string) (d : option string),
    ~ In k fieldnames ->
    get (dict_reader_row fieldnames row) k d = d.
Proof.
  intros fieldnames row k d H. unfold get, Dict.get, dict_reader_row.
  rewrite lookup_after_none.
  destruct (in_dec string_dec k (skipn (List.length row) fieldnames))
    as [Hin | _]; [destruct H; eapply in_skipn; eauto|].
  unfold Dict.of_pairs. rewrite lookup_after_pairs; [reflexivity|].
  intros Hin. apply H. apply in_map_iff in Hin.
  destruct Hin as [[k0 v0] [<- Hin]]. now apply in_combine_l in Hin.
Qed.

(** X17. A row shorter than the header gives [None], not the default,
    for every column beyond its length: [get] returns [None] there, which
    is what the key and the thumbnail cannot take. *)
Theorem short_row_reads_none :
  forall (fieldnames row : list string) (k : string) (d : option string),
    In k (skipn (List.length row) fieldnames) ->
    get (dict_reader_row fieldnames row) k d = None.
Proof.
  intros fieldnames row k d H. unfold get, Dict.get, dict_reader_row.
  rewrite lookup_after_none.
  now destruct (in_dec string_dec k (skipn (List.length row) fieldnames)).
Qed.

Lemma str_record_set (d : record) (k s : string) :
  str_record d = true ->
  str_record (Dict.set String.eqb k (Some s) d) = true.
Proof.
  unfold str_record. induction d as [|[k0 v0] d IH]; cbn; [reflexivity|].
  intros H. apply andb_true_iff in H. destruct H as [H0 H].
  destruct (String.eqb k k0); cbn; [exact H|].
  now rewrite H0, IH.
Qed.

Lemma str_record_pairs (names row : list string) (d : record) :
  str_record d = true ->
  str_record
    (fold_left (fun d kv => Dict.set String.eqb (fst kv) (snd kv) d)
               (combine names (map Some row)) d) = true.
Proof.
  revert row d. induction names as [|n names IH]; intros [|x row] d H;
    cbn [map combine fold_left fst snd]; auto.
  now apply IH, str_record_set.
Qed.

(** X18. A row with at least as many fields as the header gives a record
    whose fields are all strings: the records of such rows are the ones
    for which the rows are rendered without an exception. *)
Theorem full_row_is_str_record :
  forall fieldnames row : list string,
    List.length fieldnames <= List.length row ->
    str_record (dict_reader_row fieldnames row) = true.
Proof.
  intros fieldnames row H. unfold dict_reader_row.
  rewrite skipn_all2 by exact H. cbn [fold_left].
  unfold Dict.of_pairs. now apply str_record_pairs.
Qed.

Lemma lookup_kept (k : string) (names : list string)
      (vals : list (option string)) (n : nat) (d : record) :
  ~ In k names ->
  Dict.lookup String.eqb k
    (fold_left (fun d key => Dict.set String.eqb key None d) (skipn n names)
       (fold_left (fun d kv => Dict.set String.eqb (fst kv) (snd kv) d)
                  (combine names vals) d))
  = Dict.lookup String.eqb k d.
Proof.
  intros H. rewrite lookup_after_none.
  destruct (in_dec string_dec k (skipn n names)) as [Hin | _];
    [destruct H; eapply in_skipn; eauto|].
  apply lookup_after_pairs. intros Hin. apply H.
  apply in_map_iff in Hin. destruct Hin as [[k0 v0] [<- Hin]].
  now apply in_combine_l in Hin.
Qed.

Lemma reader_row_lookup (names row : list string) (k v : string) (d : record) :
  NoDup names -> In (k, v) (combine names row) ->
  Dict.lookup String.eqb k
    (fold_left (fun d key => Dict.set String.eqb key None d)
       (skipn (List.length row) names)
       (fold_left (fun d kv => Dict.set String.eqb (fst kv) (snd kv) d)
                  (combine names (map Some row)) d))
  = Some (Some v).
Proof.
  intros Hnd. revert row d.
  induction Hnd as [|n names Hnotin Hnd IH]; intros [|x row] d Hin;
    try destruct Hin.
  - injection H as <- <-.
    cbn [map combine fold_left fst snd List.length skipn].
    rewrite lookup_kept by exact Hnotin.
    rewrite dict_lookup_set. now rewrite String.eqb_refl.
  - cbn [map combine fold_left fst snd List.length skipn]. now apply IH.
Qed.

(** X19. Under a header without repeated names, every field of a row is
    read back under the name of its column: [get] returns the text that
    the row holds there. *)
Theorem present_field_reads_back :
  forall (fieldnames row : list string) (k v : string) (d : option string),
    NoDup fieldnames ->
    In (k, v) (combine fieldnames row) ->
    get (dict_reader_row fieldnames row) k d = Some v.
Proof.
  intros fieldnames row k v d Hnd Hin.
  unfold get, Dict.get, dict_reader_row, Dict.of_pairs.
  now rewrite (@reader_row_lookup fieldnames row k v [] Hnd Hin).
Qed.


(* ------------------------------------------------------------------ *)
(** ** The text of the rows *)

Lemma count_suffix_shown (n : nat) : count_suffix n = shown_count n.
Proof. destruct n as [|[|n]]; reflexivity. Qed.

Lemma safe_html_str (s : string) : safe_html (Some s) = escape_each s.
Proof.
  unfold safe_html. rewrite html_escape_each. now destruct s.
Qed.

Lemma or_else_str (s d : string) :
  Py.or_else (Some s) d = if Py.truthy s then s else d.
Proof. reflexivity. Qed.

(** The anchor that [row_cells] builds is the anchor of the design. *)
Lemma title_anchor_text (n l : string) (count : nat) :
  title_anchor (safe_html (Some (Py.or_else (Some l) "#")))
               (safe_html (Some (Py.or_else (Some n) "N/A")))
               (count_suffix count)
  = anchor_text (n, l) count.
Proof.
  rewrite !safe_html_str, !or_else_str, count_suffix_shown.
  unfold title_anchor, quoted, anchor_text. cbn [fst snd].
  now rewrite !str_app_assoc.
Qed.

(** The row template after its [rstrip]. *)
Lemma row_html_text (c : cells) :
  row_html c
  = row_text (img c) (title_cell c) (author c) (category c) (genre c)
             (tags c) (price c).
Proof.
  unfold row_html.
  assert (Htail : Py.rstrip ("        </tr>" ++ Py.nl ++ "        ")
                  = "        </tr>") by reflexivity.
  remember ("        </tr>" ++ Py.nl ++ "        ") as tail eqn:Et.
  clear Et.
  repeat (rewrite rstrip_app;
          [|repeat apply rstrip_app_nonempty; rewrite Htail; discriminate]).
  rewrite Htail. unfold td, row_text. now rewrite !str_app_assoc.
Qed.


Lemma make_chips_of (field : option string) :
  make_chips field = chips_of field.
Proof.
  destruct field as [cell|]; [apply make_chips_by_rule | reflexivity].
Qed.

(* ------------------------------------------------------------------ *)
(** ** From the document back to the rows *)





(* ------------------------------------------------------------------ *)
(** ** One row per key, with its count *)


(* ------------------------------------------------------------------ *)
(** ** Chips *)

(** C8. In a row that is rendered, the Category, Genre and Tags cells
    hold, in the text of the row, what the rule of the design gives for
    their fields: the field is split on commas, each piece is stripped and
    the empty pieces are dropped; the cell is the text N/A when no piece
    is left or the field is missing, and otherwise one chip per piece, the
    chips separated by one blank, a chip being the anchor of class
    filter-chip around the piece with its five markup characters replaced
    by their entities. So a field that is empty or made of blanks and
    commas only gives N/A, the field [Action, Puzzle] gives exactly the
    two chips labelled Action and Puzzle, and the pieces of [R&D, <b>]
    are shown escaped. *)
Theorem chips_or_na :
  forall (fs : string -> result bool) (name link : string) (count : nat)
         (first : record) (c : cells) (cell : string),
    row_cells fs name link count first = Ok c ->
    blank_or_comma cell = true ->
    (exists cover title author price : string,
        row_html c
        = row_text cover title author
                   (chips_of (get first "Category" (Some "")))
                   (chips_of (get first "Genre" (Some "")))
                   (chips_of (get first "Tags" (Some "")))
                   price)
    /\ make_chips (Some cell) = "N/A"
    /\ make_chips None = "N/A"
    /\ make_chips (Some "Action, Puzzle")
       = "<a href=" ++ Py.dq ++ "#" ++ Py.dq ++ " class=" ++ Py.dq
           ++ "filter-chip" ++ Py.dq ++ ">Action</a>"
           ++ " "
           ++ "<a href=" ++ Py.dq ++ "#" ++ Py.dq ++ " class=" ++ Py.dq
           ++ "filter-chip" ++ Py.dq ++ ">Puzzle</a>"
    /\ make_chips (Some "R&D, <b>")
       = "<a href=" ++ Py.dq ++ "#" ++ Py.dq ++ " class=" ++ Py.dq
           ++ "filter-chip" ++ Py.dq ++ ">R&amp;D</a>"
           ++ " "
           ++ "<a href=" ++ Py.dq ++ "#" ++ Py.dq ++ " class=" ++ Py.dq
           ++ "filter-chip" ++ Py.dq ++ ">&lt;b&gt;</a>"
    /\ (forall field : string, make_chips (Some field) = chips_by_rule field)
    /\ (forall tag : string, chip tag = chip_text tag)
    /\ (forall tag : string, no_markup (escape_each tag)).
Proof.
  intros fs name link count first c cell Hc Hcell.
  destruct (row_cells_fields _ _ _ _ _ Hc) as [_ [H1 [H2 [H3 _]]]].
  split; [|repeat split].
  - exists (img c), (title_cell c), (author c), (price c).
    rewrite row_html_text, H1, H2, H3, !make_chips_of. reflexivity.
  - now apply make_chips_blank.
  - apply make_chips_by_rule.
  - apply chip_is_text.
  - rewrite <- safe_html_str. apply safe_html_no_markup.
  - rewrite <- safe_html_str. apply safe_html_no_markup.
  - rewrite <- safe_html_str. apply safe_html_no_markup.
  - rewrite <- safe_html_str. apply safe_html_no_markup.
Qed.

(* ------------------------------------------------------------------ *)
(** ** When [build_rows] returns *)

(** A row is rendered exactly when Thumbnail is a string and the file
    system answers for the decoded path, which it is asked only when the
    path is not empty. *)
Lemma row_cells_ok_iff (fs : string -> result bool) (n l : string)
      (count : nat) (first : record) :
  (exists c, row_cells fs n l count first = Ok c)
  <-> exists path b,
      unquote (get first "Thumbnail" (Some "")) = Ok path
      /\ on_disk fs path = Ok b.
Proof.
  split.
  - intros [c Hc]. destruct (row_cells_img _ _ _ _ _ Hc) as [t [b [Ht [Hb _]]]].
    eauto.
  - intros [t [b [Ht Hb]]]. unfold row_cells. rewrite Ht. cbn [bind].
    unfold on_disk in Hb. rewrite Hb. cbn [bind]. eauto.
Qed.

(** X8. [build_rows] returns exactly when the reader raises nothing, Game
    Name and Game Page Link are strings in every record, and, for the
    first record of every key, Thumbnail is a string and [exists()]
    answers for its decoded path when that path is not empty; [None] in
    any other field of any record raises nothing, and neither does a path
    that [exists()] cannot examine in a record that is not the first of
    its key. *)
Theorem build_rows_returns_iff :
  forall (fs : string -> result bool) (lines : list csv_line),
    (exists document, build_rows fs (Some lines) = Ok document)
    <-> snd (dict_reader lines) = None
        /\ (forall r, In r (fst (dict_reader lines)) ->
                      get r "Game Name" (Some "") <> None
                      /\ get r "Game Page Link" (Some "") <> None)
        /\ (forall k first,
               hd_error (filter (has_key k) (fst (dict_reader lines)))
               = Some first ->
               exists path b,
                 unquote (get first "Thumbnail" (Some "")) = Ok path
                 /\ on_disk fs path = Ok b).
Proof.
  intros fs lines.
  destruct (dict_reader lines) as [recs err] eqn:Hread. cbn [fst snd].
  unfold build_rows. rewrite (build_row_list_read fs lines Hread).
  rewrite group_records_pairs. split.
  - destruct (mapM record_key recs) as [ks|] eqn:Hks;
      [|intros [d H]; discriminate].
    cbn [bind]. destruct err; [intros [d H]; discriminate|].
    unfold rows_of_groups.
    destruct (mapM (build_row fs) (sorted (group_pairs (combine ks recs) [])))
      as [rows|] eqn:Hrows; [|intros [d H]; discriminate].
    intros _. split; [reflexivity|]. split.
    + intros r Hr. apply record_key_ok_iff.
      apply (mapM_ok_in _ _ r Hks Hr).
    + intros k first Hhd.
      rewrite <- (members_of_filter k recs Hks) in Hhd.
      rewrite <- (app_nil_l (members_of _ _)) in Hhd.
      change (@nil record) with (records_of k []) in Hhd.
      rewrite <- group_pairs_records in Hhd.
      assert (Hin : In (k, records_of k (group_pairs (combine ks recs) []))
                       (sorted (group_pairs (combine ks recs) []))).
      { apply (Permutation_in _ (Permutation_sym (sorted_perm _))).
        apply records_of_in. intros E. rewrite E in Hhd. discriminate. }
      destruct (mapM_ok_in _ _ _ Hrows Hin) as [row Hrow].
      apply build_row_inv in Hrow. cbn [fst snd] in Hrow.
      destruct Hrow as [first' [c [Hhd' [Hc _]]]].
      assert (first' = first) by congruence. subst first'.
      apply (row_cells_ok_iff fs (fst k) (snd k)
               (List.length (records_of k (group_pairs (combine ks recs) [])))).
      eauto.
  - intros [-> [Hkeys Hthumb]].
    destruct (mapM_total record_key recs) as [ks [Hks _]].
    { intros r Hr. apply record_key_ok_iff. auto. }
    rewrite Hks. cbn [bind]. unfold rows_of_groups.
    destruct (mapM_total (build_row fs)
                (sorted (group_pairs (combine ks recs) [])))
      as [rows [Hrows _]].
    { intros [[n l] rs] Hin.
      apply (Permutation_in _ (sorted_perm _)) in Hin.
      apply grouped_item in Hin. destruct Hin as [Hrs Hne].
      rewrite (members_of_filter (n, l) recs Hks) in Hrs.
      destruct rs as [|first rs']; [congruence|].
      assert (Hhd : hd_error (filter (has_key (n, l)) recs) = Some first)
        by now rewrite <- Hrs.
      destruct (proj2 (row_cells_ok_iff fs n l (List.length (first :: rs'))
                                        first) (Hthumb _ _ Hhd)) as [c Hc].
      exists (row_html c). unfold build_row. cbn [index0 bind].
      now rewrite Hc. }
    rewrite Hrows. cbn [bind]. eauto.
Qed.

(* ------------------------------------------------------------------ *)
(** ** Records without a name and a link *)

Lemma group_pairs_one_key (k : key) (recs rs0 : list record) :
  group_pairs (combine (map (fun _ => k) recs) recs) [(k, rs0)]
  = [(k, (rs0 ++ recs)%list)].
Proof.
  unfold group_pairs. revert rs0.
  induction recs as [|r recs IH]; intros rs0;
    cbn [map combine fold_left fst snd append_to].
  - now rewrite app_nil_r.
  - rewrite key_eqb_refl, IH, <- app_assoc. reflexivity.
Qed.

Lemma mapM_constant {A B : Type} (f : A -> result B) (b : B) (l : list A) :
  Forall (fun a => f a = Ok b) l -> mapM f l = Ok (map (fun _ => b) l).
Proof.
  induction 1 as [|a l Ha Hl IH]; [reflexivity|].
  cbn [mapM map]. now rewrite Ha, IH.
Qed.

(** X15. Records whose Game Name and Game Page Link are both blank, as
    all are when the file has neither column, fall into one group:
    [build_rows] renders the first of them with the count of them all
    and nothing else. The row is rendered when Thumbnail is a string in
    that record and [exists()] answers; the document is then this single
    row, whose anchor points to #, shows N/A followed by the count, and
    whose other cells come from the first record. *)
Theorem blank_keys_collapse :
  forall (fs : string -> result bool) (lines : list csv_line) (r : record)
         (rest : list record),
    dict_reader lines = (r :: rest, None) ->
    Forall (fun x => record_key x = Ok ("", "")) (r :: rest) ->
    build_row_list fs (Some lines)
    = (c <- row_cells fs "" "" (S (List.length rest)) r ;; Ok [row_html c])
    /\ (forall path b,
           unquote (get r "Thumbnail" (Some "")) = Ok path ->
           on_disk fs path = Ok b ->
           exists c, row_cells fs "" "" (S (List.length rest)) r = Ok c)
    /\ forall c : cells,
        row_cells fs "" "" (S (List.length rest)) r = Ok c ->
        build_rows fs (Some lines) = Ok (row_html c)
        /\ row_html c
           = row_text
               (img c)
               ("<a href=" ++ Py.dq ++ "#" ++ Py.dq ++ " target=" ++ Py.dq
                  ++ "_blank" ++ Py.dq ++ ">N/A"
                  ++ shown_count (S (List.length rest)) ++ "</a>"
                  ++ details_html
                       (safe_html (get r "Description" (Some ""))))
               (safe_html (get r "Author" (Some "")))
               (chips_of (get r "Category" (Some "")))
               (chips_of (get r "Genre" (Some "")))
               (chips_of (get r "Tags" (Some "")))
               (safe_text (get r "Price" (Some ""))).
Proof.
  intros fs lines r rest Hread Hkeys.
  assert (Hlist : build_row_list fs (Some lines)
                  = (c <- row_cells fs "" "" (S (List.length rest)) r ;;
                     Ok [row_html c])).
  { rewrite (build_row_list_read fs lines Hread), group_records_pairs.
    rewrite (mapM_constant record_key Hkeys). cbn [bind map combine].
    change (group_pairs
              (("", "", r) :: combine (map (fun _ => ("", "")) rest) rest) [])
      with (group_pairs (combine (map (fun _ : record => ("", "")) rest) rest)
                        [(("", ""), [r])]).
    rewrite group_pairs_one_key. unfold rows_of_groups.
    cbn [sorted fold_right insert_item mapM build_row app List.length index0
         bind].
    destruct (row_cells fs "" "" (S (List.length rest)) r); reflexivity. }
  split; [exact Hlist|]. split.
  - intros path b Hpath Hb.
    apply (row_cells_ok_iff fs "" "" (S (List.length rest)) r). eauto.
  - intros c Hc. split.
    + unfold build_rows. rewrite Hlist, Hc. reflexivity.
    + rewrite row_html_text, (row_cells_title _ _ _ _ _ Hc).
      rewrite title_anchor_text.
      destruct (row_cells_fields _ _ _ _ _ Hc) as [-> [-> [-> [-> ->]]]].
      rewrite !make_chips_of. unfold anchor_text. cbn [fst snd Py.truthy].
      cbn [escape_each escape_char]. f_equal.
      now rewrite !str_app_assoc.
Qed.

(* ------------------------------------------------------------------ *)
(** ** The run *)

Section Run.

(** The two templates and the confirmation, as in [main]. *)
Variables HTML_HEADER HTML_FOOTER DONE_MESSAGE : string.

(** A run whose rows are built and whose device takes the whole
    document: the document is in the output file, whether or not the
    confirmation can be printed. *)
Lemma main_written (w : world) (rows : string) :
  build_rows (path_exists w) (csv_file w) = Ok rows ->
  out_writable w = true ->
  out_room w = None ->
  out_file (snd (main HTML_HEADER HTML_FOOTER DONE_MESSAGE w))
  = Some (HTML_HEADER ++ rows ++ HTML_FOOTER)
  /\ (stdout_ok w = true ->
      main HTML_HEADER HTML_FOOTER DONE_MESSAGE w
      = (Ok tt, completed DONE_MESSAGE w (HTML_HEADER ++ rows ++ HTML_FOOTER)))
  /\ (stdout_ok w = false ->
      main HTML_HEADER HTML_FOOTER DONE_MESSAGE w
      = (Raise UnicodeEncodeError,
         with_out_file (HTML_HEADER ++ rows ++ HTML_FOOTER) w)).
Proof.
  intros Hrows Hw Hroom. rewrite main_cases, Hrows.
  unfold write_text. rewrite Hw, Hroom. unfold print, completed.
  cbn [stdout_ok with_out_file].
  destruct (stdout_ok w); repeat split; intros; congruence.
Qed.

(** The outcomes of a run whose rows are built. *)
Lemma main_after_rows (w : world) (rows : string) :
  build_rows (path_exists w) (csv_file w) = Ok rows ->
  main HTML_HEADER HTML_FOOTER DONE_MESSAGE w
  = (Ok tt, completed DONE_MESSAGE w (HTML_HEADER ++ rows ++ HTML_FOOTER))
  \/ main HTML_HEADER HTML_FOOTER DONE_MESSAGE w = (Raise PermissionError, w)
  \/ (exists n,
         n < String.length (HTML_HEADER ++ rows ++ HTML_FOOTER)
         /\ main HTML_HEADER HTML_FOOTER DONE_MESSAGE w
            = (Raise OSError,
               with_out_file
                 (String.substring 0 n (HTML_HEADER ++ rows ++ HTML_FOOTER))
                 w))
  \/ main HTML_HEADER HTML_FOOTER DONE_MESSAGE w
     = (Raise UnicodeEncodeError,
        with_out_file (HTML_HEADER ++ rows ++ HTML_FOOTER) w).
Proof.
  intros Hrows. rewrite main_cases, Hrows. unfold write_text.
  destruct (out_writable w); [|right; left; reflexivity].
  assert (Hprint : forall d,
             print DONE_MESSAGE (with_out_file d w)
             = (Ok tt, completed DONE_MESSAGE w d)
             \/ print DONE_MESSAGE (with_out_file d w)
                = (Raise UnicodeEncodeError, with_out_file d w)).
  { intros d. unfold print, completed. cbn [stdout_ok with_out_file].
    destruct (stdout_ok w); [left | right]; reflexivity. }
  destruct (out_room w) as [n|].
  - destruct (n <? String.length (HTML_HEADER ++ rows ++ HTML_FOOTER))%nat
      eqn:En.
    + right; right; left. exists n. split; [|reflexivity].
      now apply Nat.ltb_lt.
    + destruct (Hprint (HTML_HEADER ++ rows ++ HTML_FOOTER)) as [-> | ->];
        [left | right; right; right]; reflexivity.
  - destruct (Hprint (HTML_HEADER ++ rows ++ HTML_FOOTER)) as [-> | ->];
      [left | right; right; right]; reflexivity.
Qed.


(** C6, as the program has it. A run whose reading, parsing, grouping or
    rendering raises fails with that exception and leaves the world as it
    was: nothing is written. A run whose rows are built ends in one of
    four ways: it completes, the document being in the output file and
    the confirmation printed; the output file cannot be opened, and
    nothing has changed; a write fails, and the output file holds a
    proper prefix of the document in place of what it held; or the
    confirmation cannot be printed, and the run fails although the whole
    document is in the output file. So a run that completes has written
    the whole document, and a run that changes the output file has built
    its rows. *)
Theorem run_outcomes :
  forall w : world,
    (forall e, read_and_group (csv_file w) = Raise e ->
               main HTML_HEADER HTML_FOOTER DONE_MESSAGE w = (Raise e, w))
    /\ (forall e, build_rows (path_exists w) (csv_file w) = Raise e ->
                  main HTML_HEADER HTML_FOOTER DONE_MESSAGE w = (Raise e, w))
    /\ (forall rows,
           build_rows (path_exists w) (csv_file w) = Ok rows ->
           main HTML_HEADER HTML_FOOTER DONE_MESSAGE w
           = (Ok tt,
              completed DONE_MESSAGE w (HTML_HEADER ++ rows ++ HTML_FOOTER))
           \/ main HTML_HEADER HTML_FOOTER DONE_MESSAGE w
              = (Raise PermissionError, w)
           \/ (exists n,
                  n < String.length (HTML_HEADER ++ rows ++ HTML_FOOTER)
                  /\ main HTML_HEADER HTML_FOOTER DONE_MESSAGE w
                     = (Raise OSError,
                        with_out_file
                          (String.substring
                             0 n (HTML_HEADER ++ rows ++ HTML_FOOTER))
                          w))
           \/ main HTML_HEADER HTML_FOOTER DONE_MESSAGE w
              = (Raise UnicodeEncodeError,
                 with_out_file (HTML_HEADER ++ rows ++ HTML_FOOTER) w))
    /\ (fst (main HTML_HEADER HTML_FOOTER DONE_MESSAGE w) = Ok tt ->
        exists rows,
          build_rows (path_exists w) (csv_file w) = Ok rows
          /\ out_file (snd (main HTML_HEADER HTML_FOOTER DONE_MESSAGE w))
             = Some (HTML_HEADER ++ rows ++ HTML_FOOTER)
          /\ stdout (snd (main HTML_HEADER HTML_FOOTER DONE_MESSAGE w))
             = (stdout w ++ [DONE_MESSAGE])%list)
    /\ (out_file (snd (main HTML_HEADER HTML_FOOTER DONE_MESSAGE w))
        <> out_file w ->
        exists rows,
          build_rows (path_exists w) (csv_file w) = Ok rows).
Proof.
  intros w.
  assert (Hraise : forall e,
             build_rows (path_exists w) (csv_file w) = Raise e ->
             main HTML_HEADER HTML_FOOTER DONE_MESSAGE w = (Raise e, w)).
  { intros e He. now rewrite main_cases, He. }
  split; [|split; [exact Hraise|split; [|split]]].
  - intros e He. apply Hraise.
    unfold build_rows, build_row_list. now rewrite He.
  - intros rows Hrows. now apply main_after_rows.
  - intros Hok.
    destruct (build_rows (path_exists w) (csv_file w)) as [rows|e] eqn:Hrows.
    + exists rows. split; [reflexivity|].
      destruct (main_after_rows w Hrows) as [H | [H | [[n [_ H]] | H]]];
        rewrite H in *; try discriminate.
      split; reflexivity.
    + rewrite (Hraise e eq_refl) in Hok. discriminate.
  - intros Hchanged.
    destruct (build_rows (path_exists w) (csv_file w)) as [rows|e] eqn:Hrows.
    + eauto.
    + rewrite (Hraise e eq_refl) in Hchanged. now destruct Hchanged.
Qed.

(** X13. When the reader yields no record and raises nothing, as for an
    empty file or a file with its header only, [build_rows] returns the
    empty string; a run whose output file can be opened and whose device
    takes the whole document then leaves the header template followed at
    once by the footer template in the output file, and it completes
    exactly when the confirmation can be printed. *)
Theorem no_record_gives_templates :
  forall (w : world) (lines : list csv_line),
    csv_file w = Some lines ->
    dict_reader lines = ([], None) ->
    build_rows (path_exists w) (csv_file w) = Ok ""
    /\ (out_writable w = true ->
        out_room w = None ->
        out_file (snd (main HTML_HEADER HTML_FOOTER DONE_MESSAGE w))
        = Some (HTML_HEADER ++ HTML_FOOTER)
        /\ (stdout_ok w = true ->
            main HTML_HEADER HTML_FOOTER DONE_MESSAGE w
            = (Ok tt, completed DONE_MESSAGE w (HTML_HEADER ++ HTML_FOOTER)))
        /\ (stdout_ok w = false ->
            main HTML_HEADER HTML_FOOTER DONE_MESSAGE w
            = (Raise UnicodeEncodeError,
               with_out_file (HTML_HEADER ++ HTML_FOOTER) w))).
Proof.
  intros w lines Hcsv Hread.
  assert (Hrows : build_rows (path_exists w) (csv_file w) = Ok "").
  { rewrite Hcsv. unfold build_rows.
    now rewrite (build_row_list_read (path_exists w) lines Hread). }
  split; [exact Hrows|].
  intros Hw Hroom. exact (main_written w Hrows Hw Hroom).
Qed.

End Run.

End Program.

(* ------------------------------------------------------------------ *)
(** ** The properties at the concrete inputs *)

Example strip_examples :
  Py.strip "  a b  " = "a b" /\ Py.strip "" = "" /\ Py.rstrip "x " = "x"
  /\ Py.strip (Py.nl ++ " Puzzle" ++ Py.nl) = "Puzzle".
Proof. repeat split. Qed.

Example split_examples :
  Py.split "," "" = [""]
  /\ Py.split "," "a,,b," = ["a"; ""; "b"; ""]
  /\ Py.split "," "Action, Puzzle" = ["Action"; " Puzzle"].
Proof. repeat split. Qed.

Example html_escape_example :
  Py.html_escape ("<a href='x'>R&D" ++ Py.dq ++ "</a>") true
  = "&lt;a href=&#x27;x&#x27;&gt;R&amp;D&quot;&lt;/a&gt;".
Proof. reflexivity. Qed.

Example dict_reader_examples :
  dict_reader [] = ([], None)
  /\ dict_reader [Row ["a"; "a"; "b"]; Row ["1"; "2"; "3"]; Row [];
                  Row ["4"; "5"; "6"; "7"]; Bad CsvError; Row ["8"]]
     = ([[("a", Some "2"); ("b", Some "3")];
         [("a", Some "5"); ("b", Some "6")]], Some CsvError).
Proof. repeat split. Qed.

Example sorted_example :
  map fst (sorted [(("b", "x"), 1); (("a", "z"), 2); (("a", "y"), 3);
                   (("B", ""), 4)])
  = [("B", ""); ("a", "y"); ("a", "z"); ("b", "x")].
Proof. reflexivity. Qed.

Example sample_read :
  dict_reader sample_csv = ([celeste; baba; celeste_again], None).
Proof. reflexivity. Qed.

Example count_suffix_examples :
  count_suffix 1 = "" /\ count_suffix 3 = " (3)" /\ count_suffix 12 = " (12)".
Proof. repeat split. Qed.

(** C1. The Price cell and the [src] attributes of the images carry their
    field as it is: with a price and a thumbnail path that hold markup
    characters, the row holds them unescaped, while [safe_html] lets none
    through. *)
Theorem price_and_thumbnail_not_escaped :
  forall unquote_pct : string -> string,
    build_rows unquote_pct any_file (Some markup_csv)
    = Ok (row_html
            {| img := img_html markup_thumbnail;
               title_cell :=
                 title_anchor "https://a.itch.io/celeste" "Celeste" "";
               author := ""; category := "N/A"; genre := "N/A";
               tags := "N/A"; price := "<i>free</i>" |})
    /\ Py.contains "<" "<i>free</i>" = true
    /\ Py.contains "034" markup_thumbnail = true
    /\ Py.contains "<" (safe_html (Some "<i>free</i>")) = false
    /\ Py.contains "034" (safe_html (Some markup_thumbnail)) = false.
Proof.
  intros unquote_pct. repeat split.
Qed.

(** C2. A data row shorter than the header gives a record whose missing
    fields are [None], not the empty string, and [build_rows] raises:
    AttributeError where the key is stripped, TypeError where the
    thumbnail is decoded. *)
Theorem short_row_raises :
  forall (unquote_pct : string -> string) (fs : string -> result bool),
    dict_reader short_row_csv
    = ([[("Game Name", Some "Celeste"); ("Game Page Link", None)]], None)
    /\ build_rows unquote_pct fs (Some short_row_csv) = Raise AttributeError
    /\ build_rows unquote_pct fs (Some short_thumbnail_csv) = Raise TypeError
    /\ safe_text None = "N/A" /\ safe_html None = "" /\ make_chips None = "N/A".
Proof.
  intros unquote_pct fs. repeat split.
Qed.

(** C3. With an empty description the title cell still holds the
    disclosure element, around nothing; the element is left out only when
    the description is the text N/A. *)
Theorem empty_description_keeps_details :
  forall (unquote_pct : string -> string) (fs : string -> result bool),
    build_rows unquote_pct fs (Some no_description_csv)
    = Ok (row_html
            {| img := "N/A";
               title_cell :=
                 title_anchor "https://a.itch.io/celeste" "Celeste" ""
                   ++ details_element "";
               author := ""; category := "N/A"; genre := "N/A";
               tags := "N/A"; price := "N/A" |})
    /\ details_html (safe_html (Some "")) = details_element ""
    /\ details_html (safe_html None) = details_element ""
    /\ details_html (safe_html (Some "N/A")) = "".
Proof.
  intros unquote_pct fs. repeat split.
Qed.

Lemma later_duplicate_fields_ignored_witness :
  dict_reader sample_csv = ([celeste; baba] ++ celeste_again :: [], None)%list
  /\ dict_reader sample_csv_repriced
     = ([celeste; baba] ++ set_field "Price" (Some "$1") celeste_again :: [],
        None)%list
  /\ In celeste [celeste; baba]
  /\ record_key celeste = record_key celeste_again
  /\ "Price" <> "Game Name"
  /\ "Price" <> "Game Page Link"
  /\ build_rows no_decoding no_file (Some sample_csv_repriced)
     = build_rows no_decoding no_file (Some sample_csv).
Proof.
  assert (H1 : "Price" <> "Game Name") by discriminate.
  assert (H2 : "Price" <> "Game Page Link") by discriminate.
  assert (H3 : In celeste [celeste; baba]) by (left; reflexivity).
  do 2 (split; [reflexivity|]). split; [exact H3|].
  split; [reflexivity|]. split; [exact H1|]. split; [exact H2|].
  exact (proj1 (@later_duplicate_fields_ignored no_decoding no_file
                  sample_csv sample_csv_repriced [celeste; baba] []
                  celeste_again celeste None "Price" (Some "$1")
                  eq_refl eq_refl H3 eq_refl H1 H2)).
Defined.

Lemma cells_nonempty_but_author_witness :
  exists c,
    row_cells no_decoding no_file "Celeste" "https://a.itch.io/celeste" 2
              celeste = Ok c
    /\ img c <> "" /\ title_cell c <> "" /\ category c <> ""
    /\ genre c <> "" /\ tags c <> "" /\ price c <> "".
Proof.
  eexists. split; [reflexivity|].
  pose proof (@cells_nonempty_but_author no_decoding no_file "Celeste"
                "https://a.itch.io/celeste" 2 celeste _ eq_refl) as H.
  repeat (split; [apply H|]). apply H.
Defined.


(* ------------------------------------------------------------------ *)
(** ** The further properties at the concrete inputs *)

Lemma groups_partition_input_witness :
  read_and_group (Some sample_csv) = Ok sample_groups
  /\ NoDup (map fst sample_groups)
  /\ Permutation (List.concat (map snd sample_groups))
                 [celeste; baba; celeste_again].
Proof.
  split; [reflexivity|].
  pose proof (@groups_partition_input sample_csv sample_groups eq_refl) as H.
  split; [exact (proj1 H) | exact (proj2 (proj2 H))].
Defined.

Lemma bad_key_aborts_witness :
  In short_celeste (fst (dict_reader short_row_csv))
  /\ get short_celeste "Game Page Link" (Some "") = None
  /\ build_rows no_decoding any_file (Some short_row_csv)
     = Raise AttributeError.
Proof.
  assert (H : In short_celeste (fst (dict_reader short_row_csv)))
    by (left; reflexivity).
  split; [exact H|]. split; [reflexivity|].
  exact (@bad_key_aborts no_decoding any_file short_row_csv short_celeste H
           (or_intror eq_refl)).
Defined.

Lemma same_rendering_same_document_witness :
  dict_reader padded_csv
  = ([set_field "Game Name" (Some " Celeste ") celeste_dated], None)
  /\ dict_reader dated_csv_changed
     = ([set_field "Purchase Date" (Some "2025-06-30") celeste_dated], None)
  /\ build_rows no_decoding no_file (Some padded_csv)
     = build_rows no_decoding no_file (Some dated_csv_changed).
Proof.
  split; [reflexivity|]. split; [reflexivity|].
  refine (proj2 (@same_rendering_same_document no_decoding no_file
                   padded_csv dated_csv_changed _ _ None eq_refl eq_refl _)).
  constructor; [|constructor]. split; [reflexivity|].
  intros k Hk. unfold rendered_fields in Hk. simpl in Hk.
  repeat (destruct Hk as [<- | Hk]; [reflexivity|]). destruct Hk.
Defined.

Lemma unrecognised_column_ignored_witness :
  dict_reader dated_csv = ([] ++ celeste_dated :: [], None)%list
  /\ dict_reader dated_csv_changed
     = ([] ++ set_field "Purchase Date" (Some "2025-06-30") celeste_dated
            :: [], None)%list
  /\ ~ In "Purchase Date" recognised_fields
  /\ build_rows no_decoding no_file (Some dated_csv_changed)
     = build_rows no_decoding no_file (Some dated_csv).
Proof.
  assert (H : ~ In "Purchase Date" recognised_fields).
  { unfold recognised_fields, rendered_fields. simpl.
    intros H. repeat (destruct H as [H | H]; [discriminate|]). exact H. }
  split; [reflexivity|]. split; [reflexivity|]. split; [exact H|].
  exact (@unrecognised_column_ignored no_decoding no_file dated_csv
           dated_csv_changed [] [] celeste_dated None "Purchase Date"
           (Some "2025-06-30") eq_refl eq_refl H).
Defined.

Lemma key_padding_ignored_witness :
  dict_reader dated_csv = ([] ++ celeste_dated :: [], None)%list
  /\ dict_reader padded_csv
     = ([] ++ set_field "Game Name" (Some " Celeste ") celeste_dated :: [],
        None)%list
  /\ get celeste_dated "Game Name" (Some "") = Some "Celeste"
  /\ Py.strip " Celeste " = Py.strip "Celeste"
  /\ build_rows no_decoding no_file (Some padded_csv)
     = build_rows no_decoding no_file (Some dated_csv).
Proof.
  do 4 (split; [reflexivity|]).
  exact (@key_padding_ignored no_decoding no_file dated_csv padded_csv [] []
           celeste_dated None "Game Name" "Celeste" " Celeste "
           eq_refl eq_refl (or_introl eq_refl) eq_refl eq_refl).
Defined.


Lemma escaped_cells_hold_no_markup_witness :
  exists c,
    row_cells no_decoding no_file "Celeste" "https://a.itch.io/celeste" 2
              celeste = Ok c
    /\ no_markup (author c).
Proof.
  eexists. split; [reflexivity|].
  exact (proj1 (@escaped_cells_hold_no_markup no_decoding no_file "Celeste"
                  "https://a.itch.io/celeste" 2 celeste _ eq_refl)).
Defined.

Lemma absent_column_reads_default_witness :
  ~ In "Thumbnail" ["Game Name"; "Game Page Link"]
  /\ get (dict_reader_row ["Game Name"; "Game Page Link"] ["Celeste"])
         "Thumbnail" (Some "") = Some "".
Proof.
  assert (H : ~ In "Thumbnail" ["Game Name"; "Game Page Link"]).
  { simpl. intros H. repeat (destruct H as [H | H]; [discriminate|]).
    exact H. }
  split; [exact H|].
  exact (@absent_column_reads_default ["Game Name"; "Game Page Link"]
           ["Celeste"] "Thumbnail" (Some "") H).
Defined.

Lemma short_row_reads_none_witness :
  In "Game Page Link"
     (skipn (List.length ["Celeste"]) ["Game Name"; "Game Page Link"])
  /\ get (dict_reader_row ["Game Name"; "Game Page Link"] ["Celeste"])
         "Game Page Link" (Some "") = None.
Proof.
  assert (H : In "Game Page Link"
                 (skipn (List.length ["Celeste"])
                        ["Game Name"; "Game Page Link"]))
    by (left; reflexivity).
  split; [exact H|].
  exact (@short_row_reads_none ["Game Name"; "Game Page Link"] ["Celeste"]
           "Game Page Link" (Some "") H).
Defined.

Lemma full_row_is_str_record_witness :
  List.length ["Game Name"; "Price"] <= List.length ["Celeste"; "$5"; "extra"]
  /\ str_record (dict_reader_row ["Game Name"; "Price"]
                                 ["Celeste"; "$5"; "extra"]) = true.
Proof.
  assert (H : List.length ["Game Name"; "Price"]
              <= List.length ["Celeste"; "$5"; "extra"])
    by (simpl; lia).
  split; [exact H|].
  exact (@full_row_is_str_record ["Game Name"; "Price"]
           ["Celeste"; "$5"; "extra"] H).
Defined.

Lemma present_field_reads_back_witness :
  NoDup ["Game Name"; "Price"]
  /\ In ("Price", "$5") (combine ["Game Name"; "Price"] ["Celeste"; "$5"])
  /\ get (dict_reader_row ["Game Name"; "Price"] ["Celeste"; "$5"])
         "Price" (Some "") = Some "$5".
Proof.
  assert (H1 : NoDup ["Game Name"; "Price"]).
  { constructor.
    - simpl. intros [H | H]; [discriminate | exact H].
    - constructor; [intros H; exact H | constructor]. }
  assert (H2 : In ("Price", "$5")
                  (combine ["Game Name"; "Price"] ["Celeste"; "$5"]))
    by (right; left; reflexivity).
  split; [exact H1|]. split; [exact H2|].
  exact (@present_field_reads_back ["Game Name"; "Price"] ["Celeste"; "$5"]
           "Price" "$5" (Some "") H1 H2).
Defined.

(* ------------------------------------------------------------------ *)
(** ** The rows and the run on concrete inputs *)

Example shown_count_examples :
  shown_count 1 = "" /\ shown_count 3 = " (3)" /\ shown_count 12 = " (12)".
Proof. repeat split. Qed.

Example anchor_text_examples :
  anchor_text ("Celeste", "https://a.itch.io/celeste") 3
  = "<a href=" ++ Py.dq ++ "https://a.itch.io/celeste" ++ Py.dq ++ " target="
      ++ Py.dq ++ "_blank" ++ Py.dq ++ ">Celeste (3)</a>"
  /\ anchor_text ("a<b", "") 1
     = "<a href=" ++ Py.dq ++ "#" ++ Py.dq ++ " target=" ++ Py.dq ++ "_blank"
         ++ Py.dq ++ ">a&lt;b</a>".
Proof. split; reflexivity. Qed.

(** The document of the sample catalog: Baba before Celeste, which is
    counted twice and shown with the fields of its first purchase. *)
Example sample_document :
  build_rows no_decoding no_file (Some sample_csv)
  = Ok (Py.join Py.nl
          [ row_text "N/A"
              (anchor_text ("Baba", "https://b.itch.io/baba") 1
                 ++ details_element "")
              "Hempuli" "N/A" "N/A" "N/A" "N/A";
            row_text "N/A"
              (anchor_text ("Celeste", "https://a.itch.io/celeste") 2
                 ++ details_element "")
              "Maddy" "N/A" "N/A"
              (chip_text "Action" ++ " " ++ chip_text "Puzzle") "$5" ]).
Proof. reflexivity. Qed.




Lemma chips_or_na_witness :
  exists c,
    row_cells no_decoding no_file "Baba" "https://b.itch.io/baba" 1 baba = Ok c
    /\ blank_or_comma " , ," = true
    /\ (exists cover title author price : string,
           row_html c = row_text cover title author "N/A" "N/A" "N/A" price)
    /\ make_chips (Some " , ,") = "N/A".
Proof.
  eexists. split; [reflexivity|]. split; [reflexivity|].
  pose proof (@chips_or_na no_decoding no_file "Baba" "https://b.itch.io/baba"
                1 baba _ " , ," eq_refl eq_refl) as H.
  split; [exact (proj1 H)|].
  exact (proj1 (proj2 H)).
Defined.

(** The run fails although the output file has been written: the
    confirmation cannot be printed, or the device is full after three
    characters of the document, the older catalog being lost. *)
Lemma run_fails_after_writing :
  main no_decoding "<header>" "<footer>" "done" world_mute
  = (Raise UnicodeEncodeError, with_out_file "<header><footer>" world_mute)
  /\ out_file world_mute = None
  /\ out_file (snd (main no_decoding "<header>" "<footer>" "done" world_mute))
     = Some "<header><footer>"
  /\ ~ all_or_nothing
         world_mute
         (main no_decoding "<header>" "<footer>" "done" world_mute)
  /\ main no_decoding "<header>" "<footer>" "done" world_full
     = (Raise OSError, with_out_file "<he" world_full)
  /\ out_file world_full = Some "an older catalog"
  /\ out_file (snd (main no_decoding "<header>" "<footer>" "done" world_full))
     = Some "<he"
  /\ ~ all_or_nothing
         world_full
         (main no_decoding "<header>" "<footer>" "done" world_full).
Proof.
  repeat split; try (intros [H | H]; discriminate).
Qed.

Lemma no_record_gives_templates_witness :
  csv_file world_mute = Some header_only_csv
  /\ dict_reader header_only_csv = ([], None)
  /\ out_file (snd (main no_decoding "<header>" "<footer>" "done" world_mute))
     = Some "<header><footer>"
  /\ main no_decoding "<header>" "<footer>" "done" world_empty
     = (Ok tt, completed "done" world_empty "<header><footer>").
Proof.
  split; [reflexivity|]. split; [reflexivity|]. split.
  - exact (proj1 (proj2 (@no_record_gives_templates
                           no_decoding "<header>" "<footer>" "done"
                           world_mute header_only_csv eq_refl eq_refl)
                        eq_refl eq_refl)).
  - exact (proj1 (proj2 (proj2 (@no_record_gives_templates
                                  no_decoding "<header>" "<footer>" "done"
                                  world_empty header_only_csv eq_refl eq_refl)
                               eq_refl eq_refl))
                 eq_refl).
Defined.

Lemma blank_keys_collapse_witness :
  dict_reader nameless_csv = ([maddy; hempuli], None)
  /\ Forall (fun x => record_key x = Ok ("", "")) [maddy; hempuli]
  /\ exists c,
      row_cells no_decoding no_file "" "" 2 maddy = Ok c
      /\ build_rows no_decoding no_file (Some nameless_csv) = Ok (row_html c)
      /\ row_html c
         = row_text "N/A"
             ("<a href=" ++ Py.dq ++ "#" ++ Py.dq ++ " target=" ++ Py.dq
                ++ "_blank" ++ Py.dq ++ ">N/A (2)</a>" ++ details_element "")
             "Maddy" "N/A" "N/A" "N/A" "$5".
Proof.
  assert (H1 : Forall (fun x => record_key x = Ok ("", "")) [maddy; hempuli])
    by (repeat constructor).
  split; [reflexivity|]. split; [exact H1|].
  destruct (@blank_keys_collapse no_decoding no_file nameless_csv maddy
              [hempuli] eq_refl H1) as [_ [_ Hrow]].
  eexists. split; [reflexivity|].
  exact (Hrow _ eq_refl).
Defined.
